(** * Interface reachability check: a model of [conn_check.py]

    The development embeds
    [scripts/inventory/reachability_checks/conn_check.py] function by
    function and proves the properties its specification states about
    discovery, parsing, reconciliation and the fabric-wide verdict.

    Python text is a sequence of code points; here a character is an
    [ascii], that is a code point below 256, and the character classes
    below are Python's on that range ([str.isspace], [str.lower] and the
    [re] classes for [str] patterns).  What the program prints is left
    out: it has no effect on the values returned. *)

From Stdlib Require Import Ascii String NArith Bool.
From stdpp Require Import gmap strings list.

Local Open Scope string_scope.

(** ** Python's [str] methods used by the program *)

Module Py.

Definition code (c : ascii) : N := N_of_ascii c.

Definition between (lo hi n : N) : bool := ((lo <=? n) && (n <=? hi))%N.

(** [str.isspace] of one character, also the class [\s] of [re]. *)
Definition isspace (c : ascii) : bool :=
  let n := code c in
  between 9 13 n || between 28 32 n || (n =? 133)%N || (n =? 160)%N.

(** The class [\d] of [re]. *)
Definition isdigit (c : ascii) : bool := between 48 57 (code c).

(** The class [\w] of [re]: alphanumeric characters and the underscore. *)
Definition isword (c : ascii) : bool :=
  let n := code c in
  between 48 57 n || between 65 90 n || (n =? 95)%N || between 97 122 n
  || (n =? 170)%N || between 178 179 n || (n =? 181)%N || between 185 186 n
  || between 188 190 n || between 192 214 n || between 216 246 n
  || between 248 255 n.

(** [str.lower] of one character. *)
Definition lower_char (c : ascii) : ascii :=
  let n := code c in
  if between 65 90 n || (between 192 222 n && negb (n =? 215)%N)
  then ascii_of_N (n + 32) else c.

(** [s.lower()] *)
Fixpoint lower (s : string) : string :=
  match s with
  | EmptyString => EmptyString
  | String c s' => String (lower_char c) (lower s')
  end.

(** [s.lstrip()] *)
Fixpoint lstrip (s : string) : string :=
  match s with
  | EmptyString => EmptyString
  | String c s' => if isspace c then lstrip s' else s
  end.

(** [s.rstrip()] *)
Fixpoint rstrip (s : string) : string :=
  match s with
  | EmptyString => EmptyString
  | String c s' =>
      match rstrip s' with
      | EmptyString => if isspace c then EmptyString else String c EmptyString
      | r => String c r
      end
  end.

(** [s.strip()] *)
Definition strip (s : string) : string := rstrip (lstrip s).

(** [s.split(sep)] for a separator of one character: empty pieces are
    kept, and the result is never empty. *)
Fixpoint split_char (sep : ascii) (s : string) : list string :=
  match s with
  | EmptyString => [EmptyString]
  | String c s' =>
      if Ascii.eqb c sep then EmptyString :: split_char sep s'
      else match split_char sep s' with
           | piece :: rest => String c piece :: rest
           | [] => [String c EmptyString]
           end
  end.

(** [s.split()]: the maximal runs of characters that are not white
    space, in order.  [cur] is the run being read, [None] between runs. *)
Fixpoint split_go (cur : option string) (s : string) : list string :=
  match s with
  | EmptyString => match cur with Some t => [t] | None => [] end
  | String c s' =>
      if isspace c
      then match cur with
           | Some t => t :: split_go None s'
           | None => split_go None s'
           end
      else match cur with
           | Some t => split_go (Some (t +:+ String c EmptyString)) s'
           | None => split_go (Some (String c EmptyString)) s'
           end
  end.

Definition split (s : string) : list string := split_go None s.

(** [s.startswith(p)] *)
Fixpoint startswith (p s : string) : bool :=
  match p, s with
  | EmptyString, _ => true
  | String a p', String b s' => Ascii.eqb a b && startswith p' s'
  | String _ _, EmptyString => false
  end.

(** [s.replace(old, new)] for a non-empty [old]: the occurrences of [old]
    are replaced from left to right and do not overlap.  [skip] counts the
    characters of the occurrence just replaced that are still to be
    dropped. *)
Fixpoint replace_go (old new : string) (skip : nat) (s : string) : string :=
  match s with
  | EmptyString => EmptyString
  | String c s' =>
      match skip with
      | S k => replace_go old new k s'
      | O =>
          if startswith old s
          then new +:+ replace_go old new (String.length old - 1) s'
          else String c (replace_go old new 0 s')
      end
  end.

Definition replace (s old new : string) : string := replace_go old new 0 s.

(** Python's slice [l[1:]]. *)
Definition slice_from_1 {A} (l : list A) : list A := drop 1 l.

End Py.

(** ** Python's [re]: a backtracking matcher

    Only what the patterns of the program need: classes, sequence,
    ordered alternation, greedy repetition, [^] and [\b].  The matcher
    explores the alternatives in the order of [re] (left alternative
    first, one more repetition first) and stops at the first success. *)

Module Re.

Inductive regex : Type :=
| Eps
| Chr (p : ascii -> bool)
| Cat (r1 r2 : regex)
| Alt (r1 r2 : regex)
| Star (r : regex)
| Bos
| WordB.

(** A position in the subject: the character before it, if any, and the
    text from it on. *)
Definition isword_opt (c : option ascii) : bool :=
  match c with Some a => Py.isword a | None => false end.

Definition head_char (s : string) : option ascii :=
  match s with String c _ => Some c | EmptyString => None end.

Fixpoint rmatch {A} (r : regex) (prev : option ascii) (s : string)
    (k : option ascii -> string -> option A) : option A :=
  match r with
  | Eps => k prev s
  | Chr p =>
      match s with
      | String c s' => if p c then k (Some c) s' else None
      | EmptyString => None
      end
  | Cat r1 r2 => rmatch r1 prev s (fun prev' s' => rmatch r2 prev' s' k)
  | Alt r1 r2 =>
      match rmatch r1 prev s k with
      | Some x => Some x
      | None => rmatch r2 prev s k
      end
  | Star r1 =>
      (fix loop (fuel : nat) (prev : option ascii) (s : string) : option A :=
         match fuel with
         | O => k prev s
         | S fuel' =>
             match rmatch r1 prev s (fun prev' s' =>
                     if (String.length s' <? String.length s)%nat
                     then loop fuel' prev' s' else None) with
             | Some x => Some x
             | None => k prev s
             end
         end) (S (String.length s)) prev s
  | Bos => match prev with None => k prev s | Some _ => None end
  | WordB =>
      if xorb (isword_opt prev) (isword_opt (head_char s))
      then k prev s else None
  end.

(** Pattern syntax. *)
Definition chr (c : ascii) : regex := Chr (Ascii.eqb c).
(** A literal character under [re.IGNORECASE]. *)
Definition chr_i (c : ascii) : regex :=
  Chr (fun x => Ascii.eqb (Py.lower_char x) (Py.lower_char c)).

Fixpoint lit (s : string) : regex :=
  match s with
  | EmptyString => Eps
  | String c s' => Cat (chr c) (lit s')
  end.

Fixpoint lit_i (s : string) : regex :=
  match s with
  | EmptyString => Eps
  | String c s' => Cat (chr_i c) (lit_i s')
  end.

Definition digit : regex := Chr Py.isdigit.
Definition space : regex := Chr Py.isspace.
Definition plus (r : regex) : regex := Cat r (Star r).   (* r+ *)
Definition opt (r : regex) : regex := Alt r Eps.          (* r? *)
Definition rep_1_2 (r : regex) : regex := Cat r (opt r).  (* r{1,2} *)
Definition rep_2_up (r : regex) : regex := Cat r (Cat r (Star r)). (* r{2,} *)

(** What is left of the subject after a match of [r] at a position. *)
Definition match_at (r : regex) (prev : option ascii) (s : string)
    : option string :=
  rmatch r prev s (fun _ rest => Some rest).

(** The first [n] characters of [s]. *)
Fixpoint take_str (n : nat) (s : string) : string :=
  match n, s with
  | S n', String c s' => String c (take_str n' s')
  | _, _ => EmptyString
  end.

(** [re.match(r, s)]: the text matched at the start of [s], that is
    [m.group(0)], or [None]. *)
Definition re_match (r : regex) (s : string) : option string :=
  match match_at r None s with
  | Some rest => Some (take_str (String.length s - String.length rest) s)
  | None => None
  end.

(** [re.search(r, s)] as a truth value: a match at some position. *)
Fixpoint search_from (r : regex) (prev : option ascii) (s : string) : bool :=
  match match_at r prev s with
  | Some _ => true
  | None =>
      match s with
      | EmptyString => false
      | String c s' => search_from r (Some c) s'
      end
  end.

Definition re_search (r : regex) (s : string) : bool := search_from r None s.

(** [re.split(r, s)] for a pattern that matches no empty text: the pieces
    of [s] between the successive matches of [r], found from left to
    right.  [piece] is the piece being read; [skip] counts the characters
    of the last match that are still to be dropped. *)
Fixpoint split_from (r : regex) (skip : nat) (prev : option ascii)
    (piece : string) (s : string) : list string :=
  match skip, s with
  | S k, String c s' => split_from r k (Some c) piece s'
  | S _, EmptyString => [piece]
  | O, _ =>
      match match_at r prev s, s with
      | Some rest, String c s' =>
          if (String.length rest <? String.length s)%nat
          then piece ::
               split_from r (String.length s - String.length rest - 1)
                 (Some c) EmptyString s'
          else split_from r 0 (Some c) (piece +:+ String c EmptyString) s'
      | None, String c s' =>
          split_from r 0 (Some c) (piece +:+ String c EmptyString) s'
      | _, EmptyString => [piece]
      end
  end.

Definition re_split (r : regex) (s : string) : list string :=
  split_from r 0 None EmptyString s.

End Re.

(** ** The program *)

Import Re.

Definition newline : ascii := "010"%char.

(** *** [parse_interface_status_output] *)

(** [r'^(Eth\d+(?:/\d+){1,2}|mgmt\d+)\b'] with [re.IGNORECASE].  The group
    spans the whole match, [^] and [\b] taking no text, so that
    [m.group(1)] is the text matched. *)
Definition interface_re : regex :=
  Cat Bos
    (Cat (Alt (Cat (lit_i "Eth")
                 (Cat (plus digit) (rep_1_2 (Cat (chr "/") (plus digit)))))
              (Cat (lit_i "mgmt") (plus digit)))
         WordB).

(** [r'\berr-?disabled\b'] *)
Definition err_disabled_re : regex :=
  Cat WordB (Cat (lit "err") (Cat (opt (chr "-")) (Cat (lit "disabled") WordB))).

(** [r'\bdisabled\b'] *)
Definition disabled_re : regex := Cat WordB (Cat (lit "disabled") WordB).

(** [r'\bnot\s*connect\b|\bnotconnect\b'] *)
Definition notconnect_re : regex :=
  Alt (Cat WordB (Cat (lit "not") (Cat (Star space) (Cat (lit "connect") WordB))))
      (Cat WordB (Cat (lit "notconnect") WordB)).

(** [r'\bsuspended\b'] *)
Definition suspended_re : regex := Cat WordB (Cat (lit "suspended") WordB).

(** [r'\bconnected\b'] *)
Definition connected_re : regex := Cat WordB (Cat (lit "connected") WordB).

(** [r'\s{2,}'] *)
Definition columns_re : regex := rep_2_up space.

Definition status_keywords : gset string :=
  {[ "connected"; "notconnect"; "not"; "disabled"; "err-disabled";
     "err-disabled"; "suspended" ]}.

(** The loop [for t in tokens[1:]], which stops at the first keyword.
    [status] is the variable of the program, assigned on a hit. *)
Fixpoint scan_tokens (tokens : list string) (status : string) : string :=
  match tokens with
  | [] => status
  | t :: rest =>
      let tt := Py.lower (Py.strip t) in
      if bool_decide (tt ∈ status_keywords)
      then (if tt =? "not" then "notconnect" else tt)
      else scan_tokens rest status
  end.

(** The last resort, when no keyword was found: the third column of the
    line, the columns being separated by two white spaces or more, or
    else its third token; [status] stays as it is when there are fewer. *)
Definition column_status (s status : string) : string :=
  let parts := re_split columns_re s in
  if bool_decide (3 ≤ length parts)%nat
  then Py.lower (Py.strip (nth 2 parts ""))
  else
    let parts2 := Py.split s in
    if bool_decide (3 ≤ length parts2)%nat
    then Py.lower (Py.strip (nth 2 parts2 ""))
    else status.

(** The body of the loop over the lines, from [status = 'unknown'] to the
    value stored for the interface; [s] is the line without its leading
    white space. *)
Definition line_status (s : string) : string :=
  let status := "unknown" in
  let tokens := Py.split s in
  let status := scan_tokens (Py.slice_from_1 tokens) status in
  if status =? "unknown" then
    let lower := Py.lower s in
    if re_search err_disabled_re lower then "err-disabled"
    else if re_search disabled_re lower then "disabled"
    else if re_search notconnect_re lower then "notconnect"
    else if re_search suspended_re lower then "suspended"
    else if re_search connected_re lower then "connected"
    else column_status s status
  else status.

Definition parse_line (interface_status : gmap string string) (line : string)
    : gmap string string :=
  let s := Py.lstrip line in
  match re_match interface_re s with
  | Some interface => <[interface := line_status s]> interface_status
  | None => interface_status
  end.

Definition parse_interface_status_output (output : string)
    : gmap string string :=
  let lines := Py.split_char newline output in
  foldl parse_line ∅ lines.

(** *** Exceptions *)

(** The exceptions the program tells apart, and the text [str(e)] of any
    other [Exception]. *)
Inductive exn : Type :=
| NetmikoTimeoutException
| NetmikoAuthenticationException
| Exception (text : string).

Inductive result (A : Type) : Type :=
| Ok (a : A)
| Raise (e : exn).
Arguments Ok {A} a.
Arguments Raise {A} e.

(** *** Parsed documents *)

(** What [yaml.safe_load] returns.  A mapping is a [dict]: its entries in
    the order of insertion.  [YBytes] is a value of type [bytes], a byte
    being a character.  [YOther] stands for a value of another type (a
    float, a date, a set, a tuple): the name of its type as the messages
    of Python give it, its truth value, and its [repr], which tells the
    values of a type apart. *)
#[warnings="-register-all"] Inductive yaml : Type :=
| YNull
| YBool (b : bool)
| YInt (z : Z)
| YStr (s : string)
| YBytes (b : string)
| YSeq (items : list yaml)
| YMap (entries : list (yaml * yaml))
| YOther (type : string) (truth : bool) (repr : string).

(** The name of the type of a value, as the messages of Python give it. *)
Definition type_name (value : yaml) : string :=
  match value with
  | YNull => "NoneType"
  | YBool _ => "bool"
  | YInt _ => "int"
  | YStr _ => "str"
  | YBytes _ => "bytes"
  | YSeq _ => "list"
  | YMap _ => "dict"
  | YOther type _ _ => type
  end.

(** [isinstance(value, (dict, list))] *)
Definition is_dict_or_list (value : yaml) : bool :=
  match value with YSeq _ | YMap _ => true | _ => false end.

(** [bool(value)] *)
Definition truth (value : yaml) : bool :=
  match value with
  | YNull => false
  | YBool b => b
  | YInt z => negb (z =? 0)%Z
  | YStr s => negb (s =? "")
  | YBytes b => negb (b =? "")
  | YSeq items => negb (bool_decide (items = []))
  | YMap entries => negb (bool_decide (entries = []))
  | YOther _ t _ => t
  end.

(** The [AttributeError] of a value that has no attribute [attr], with
    the text that [str(e)] gives. *)
Definition no_attribute (value : yaml) (attr : string) : exn :=
  Exception ("'" +:+ type_name value +:+ "' object has no attribute '"
             +:+ attr +:+ "'").

(** The [RecursionError] of a call nested too deep. *)
Definition recursion_error : exn :=
  Exception "maximum recursion depth exceeded while calling a Python object".

(** [key.lower()]: the key lower-cased when it is a text or bytes, an
    [AttributeError] for a value of another type. *)
Definition py_lower (key : yaml) : result yaml :=
  match key with
  | YStr s => Ok (YStr (Py.lower s))
  | YBytes b => Ok (YBytes (Py.lower b))
  | _ => Raise (no_attribute key "lower")
  end.

(** [value == s] for a text [s]: a value of another type, bytes among
    them, is not equal to a text. *)
Definition eq_text (value : yaml) (s : string) : bool :=
  match value with
  | YStr t => t =? s
  | _ => false
  end.

(** What [interface_name.replace('Ethernet', 'Eth')] raises when the name
    is not a text: bytes and dates have a method [replace], which refuses
    these arguments, the other types have none.  The texts are those of
    CPython 3.11. *)
Definition replace_error (interface_name : yaml) : exn :=
  match interface_name with
  | YBytes _ => Exception "a bytes-like object is required, not 'str'"
  | YOther type _ _ =>
      if (type =? "datetime.date") || (type =? "datetime.datetime")
      then Exception "'str' object cannot be interpreted as an integer"
      else no_attribute interface_name "replace"
  | _ => no_attribute interface_name "replace"
  end.

(** [k in d] and [d.get(k)] for a text key [k]: no key of another type
    equals a text. *)
Fixpoint dict_get (entries : list (yaml * yaml)) (k : string) : option yaml :=
  match entries with
  | [] => None
  | (YStr k', v) :: rest => if k' =? k then Some v else dict_get rest k
  | _ :: rest => dict_get rest k
  end.

(** *** The file tree and the devices, as the program observes them *)

(** A path that [rglob] yields: its text [str(p)], its parts relative to
    the root, and whether it is a regular file. *)
Record path_entry : Type := {
  path_text : string;
  rel_parts : list string;
  is_file : bool
}.

(** [p.name]: the last part. *)
Definition path_name (p : path_entry) : string := List.last (rel_parts p) "".

(** The text of [s] from its last dot on, if it has a dot. *)
Fixpoint from_last_dot (s : string) : option string :=
  match s with
  | EmptyString => None
  | String c s' =>
      match from_last_dot s' with
      | Some t => Some t
      | None => if Ascii.eqb c "." then Some s else None
      end
  end.

(** [p.suffix]: the name from its last dot on, when that dot is neither
    the first nor the last character of the name; otherwise empty. *)
Definition path_suffix (p : path_entry) : string :=
  match path_name p with
  | EmptyString => ""
  | String _ rest =>
      match from_last_dot rest with
      | Some t => if bool_decide (2 ≤ String.length t)%nat then t else ""
      | None => ""
      end
  end.

(** The parameters given to [ConnectHandler]. *)
Record device_params : Type := {
  device_type : string;
  host : yaml;
  username : string;
  password : string;
  timeout : Z;
  session_timeout : Z
}.

(** An open session: what its two methods do when called. *)
Record connection : Type := {
  send_command : string -> result string;
  disconnect : result unit
}.

(** The environment of one run: the configuration directory, the devices
    behind [ConnectHandler], and the number of calls of
    [find_device_info] that the interpreter lets be nested, its limit of
    recursion less the calls that are open when the search starts. *)
Record world : Type := {
  dir_exists : bool;                        (* yaml_path.exists() *)
  rglob : list path_entry;                  (* what yaml_path.rglob yields, in order *)
  safe_load : string -> result yaml;        (* open(path) and yaml.safe_load *)
  recursion_budget : nat;                   (* nested calls left to find_device_info *)
  ConnectHandler : device_params -> result connection
}.

(** *** [extract_devices_from_yaml] *)

(** The dictionary [device_info] while a document is searched. *)
Record device_info : Type := {
  file : string;
  filepath : string;
  ip : option yaml;
  hostname : option yaml
}.

(** An element of [device_list]: a [device_info] with both ['ip'] and
    ['hostname'] set. *)
Record device_descriptor : Type := {
  dev_file : string;
  dev_filepath : string;
  dev_ip : yaml;
  dev_hostname : yaml
}.

Definition set_ip (value : yaml) (d : device_info) : device_info :=
  {| file := file d; filepath := filepath d; ip := Some value;
     hostname := hostname d |}.

Definition set_hostname (value : yaml) (d : device_info) : device_info :=
  {| file := file d; filepath := filepath d; ip := ip d;
     hostname := Some value |}.

(** A loop [for x in l] whose body updates [info] and may raise. *)
Fixpoint for_each {A} (body : A -> device_info -> result device_info)
    (l : list A) (info : device_info) : result device_info :=
  match l with
  | [] => Ok info
  | x :: rest =>
      match body x info with
      | Ok info => for_each body rest info
      | Raise e => Raise e
      end
  end.

(** The body of the loop [for key, value in obj.items()]; [find] is the
    recursive call.  [key.lower()] raises for a key that is neither a
    text nor bytes. *)
Definition visit_entry (find : yaml -> device_info -> result device_info)
    (entry : yaml * yaml) (info : device_info) : result device_info :=
  let (key, value) := entry in
  match py_lower key with
  | Raise e => Raise e
  | Ok lower =>
      if eq_text lower "ip address" || eq_text lower "ip_address"
      then Ok (set_ip value info)
      else if eq_text lower "hostname"
      then Ok (set_hostname value info)
      else if is_dict_or_list value
      then find value info
      else Ok info
  end.

(** [find_device_info(obj)], which updates the dictionary [device_info],
    here [info].  [depth] is the number of calls that may still be
    nested: a call beyond it raises [RecursionError]. *)
Fixpoint find_device_info (depth : nat) (obj : yaml) (info : device_info)
    : result device_info :=
  match depth with
  | O => Raise recursion_error
  | S depth =>
      match obj with
      | YMap entries =>
          for_each (visit_entry (find_device_info depth)) entries info
      | YSeq items => for_each (find_device_info depth) items info
      | _ => Ok info
      end
  end.

(** *** [get_interfaces_without_policy] *)

(** An element of the list that [get_interfaces_without_policy]
    returns. *)
Record interface_entry : Type := {
  name : yaml;
  description : yaml;
  enable : bool
}.

(** The flag ['Enable Interface'] as a truth value. *)
Definition normalize_enable (enable_val : yaml) : bool :=
  match enable_val with
  | YStr s => bool_decide (Py.lower s ∈ ["true"; "yes"; "1"])
  | _ => truth enable_val
  end.

(** One element of the sequence ['Interface']: kept when it is a mapping
    without the key ['Policy']. *)
Definition interface_without_policy (interface : yaml) : option interface_entry :=
  match interface with
  | YMap entries =>
      match dict_get entries "Policy" with
      | Some _ => None
      | None =>
          Some {| name := default (YStr "") (dict_get entries "Name");
                  description :=
                    default (YStr "") (dict_get entries "Interface Description");
                  enable :=
                    normalize_enable
                      (default (YBool true) (dict_get entries "Enable Interface")) |}
      end
  | _ => None
  end.

(** Any exception, from reading the file or from a document that is not
    a mapping, is caught and gives the empty list. *)
Definition get_interfaces_without_policy (w : world) (yaml_file_path : string)
    : list interface_entry :=
  match safe_load w yaml_file_path with
  | Ok (YMap config) =>
      match dict_get config "Interface" with
      | Some (YSeq items) => omap interface_without_policy items
      | _ => []
      end
  | _ => []
  end.

(** *** [check_device_interface_connectivity] *)

Record interface_result : Type := {
  res_name : string;
  res_description : yaml;
  status : string;
  expected_enable : bool;
  matches_config : bool
}.

Record results : Type := {
  connected : bool;
  res_hostname : yaml;
  interface_results : list interface_result;
  error_message : string
}.

Definition set_connected (b : bool) (r : results) : results :=
  {| connected := b; res_hostname := res_hostname r;
     interface_results := interface_results r;
     error_message := error_message r |}.

Definition set_error_message (m : string) (r : results) : results :=
  {| connected := connected r; res_hostname := res_hostname r;
     interface_results := interface_results r; error_message := m |}.

Definition append_interface_result (x : interface_result) (r : results) : results :=
  {| connected := connected r; res_hostname := res_hostname r;
     interface_results := interface_results r ++ [x];
     error_message := error_message r |}.

(** The body of [try] updates [results] in place and may raise: a
    computation takes [results] and returns it updated, with a value or
    the exception raised.  What was written before the exception stays
    written. *)
Definition M (A : Type) : Type := results -> results * result A.

#[local] Instance M_ret : MRet M := fun A a r => (r, Ok a).

#[local] Instance M_bind : MBind M := fun A B f m r =>
  match m r with
  | (r', Ok a) => f a r'
  | (r', Raise e) => (r', Raise e)
  end.

Definition call {A} (x : result A) : M A := fun r => (r, x).

Definition update (f : results -> results) : M unit := fun r => (f r, Ok tt).

(** [matches] of the program, from the status read and the flag
    expected. *)
Definition matches (status : string) (expected_enable : bool) : bool :=
  let actual_is_connected := status =? "connected" in
  (actual_is_connected && expected_enable)
  || (negb actual_is_connected && negb expected_enable).

(** The body of the loop over the interfaces without policy.
    [interface_name.replace] raises when the name is not a text. *)
Definition check_interface (interface_status_map : gmap string string)
    (interface : interface_entry) : M unit :=
  interface_name ←
    call (match name interface with
          | YStr s => Ok s
          | other => Raise (replace_error other)
          end);
  let description := description interface in
  let eth_name := Py.replace interface_name "Ethernet" "Eth" in
  let status := default "not found" (interface_status_map !! eth_name) in
  let expected_enable := enable interface in
  update (append_interface_result
            {| res_name := interface_name; res_description := description;
               status := status; expected_enable := expected_enable;
               matches_config := matches status expected_enable |}).

Fixpoint check_interfaces (interface_status_map : gmap string string)
    (interfaces : list interface_entry) : M unit :=
  match interfaces with
  | [] => mret tt
  | interface :: rest =>
      check_interface interface_status_map interface;;
      check_interfaces interface_status_map rest
  end.

(** The body of [try].  The key ['filepath'] is in every [device_info]
    that [extract_devices_from_yaml] builds. *)
Definition try_body (w : world) (device : device_params)
    (device_info : device_descriptor) : M unit :=
  connection ← call (ConnectHandler w device);
  update (set_connected true);;
  (let interfaces_without_policy :=
     get_interfaces_without_policy w (dev_filepath device_info) in
   match interfaces_without_policy with
   | [] => mret tt
   | _ :: _ =>
       status_output ← call (send_command connection "show interface status");
       let interface_status_map := parse_interface_status_output status_output in
       check_interfaces interface_status_map interfaces_without_policy
   end);;
  call (disconnect connection).

Definition check_device_interface_connectivity (w : world)
    (device_info : device_descriptor) (username password : string) : results :=
  let device :=
    {| device_type := "cisco_nxos"; host := dev_ip device_info;
       username := username; password := password;
       timeout := 30; session_timeout := 30 |} in
  let results :=
    {| connected := false; res_hostname := dev_hostname device_info;
       interface_results := []; error_message := "" |} in
  match try_body w device device_info results with
  | (results, Ok _) => results
  | (results, Raise NetmikoTimeoutException) =>
      set_error_message "Connection Timeout" results
  | (results, Raise NetmikoAuthenticationException) =>
      set_error_message "Authentication Failed" results
  | (results, Raise (Exception text)) =>
      set_error_message ("Error: " +:+ text) results
  end.

(** *** [check] *)

(** The loop over [results['interface_results']]. *)
Fixpoint report_interfaces (interface_results : list interface_result)
    (interconnects_config_match : bool) : bool :=
  match interface_results with
  | [] => interconnects_config_match
  | interface_result :: rest =>
      report_interfaces rest
        (if negb (matches_config interface_result) then false
         else interconnects_config_match)
  end.

(** The loop over [device_list]. *)
Fixpoint check_devices (w : world) (device_list : list device_descriptor)
    (username password : string) (interconnects_config_match : bool) : bool :=
  match device_list with
  | [] => interconnects_config_match
  | device :: rest =>
      let results :=
        check_device_interface_connectivity w device username password in
      check_devices w rest username password
        (if connected results
         then match interface_results results with
              | _ :: _ =>
                  report_interfaces (interface_results results)
                    interconnects_config_match
              | [] => interconnects_config_match
              end
         else false)
  end.

Section Program.

(** [str(value)], the text an f-string gives for a value. *)
Variable py_str : yaml -> string.

Definition device_key (hostname ip : yaml) : string :=
  py_str hostname +:+ "_" +:+ py_str ip.

(** The body of the loop over [rglob]: the device the file adds to
    [device_list], if any, given the keys seen so far. *)
Definition scan_file (w : world) (yaml_file : path_entry)
    (seen_devices : gset string) : option device_descriptor :=
  if negb (is_file yaml_file) then None
  else if negb (bool_decide (Py.lower (path_suffix yaml_file) ∈ [".yaml"; ".yml"]))
  then None
  else if bool_decide (length (rel_parts yaml_file) < 2)%nat then None
  else
    match safe_load w (path_text yaml_file) with
    | Raise _ => None
    | Ok data =>
        let info :=
          {| file := path_name yaml_file; filepath := path_text yaml_file;
             ip := None; hostname := None |} in
        match find_device_info (recursion_budget w) data info with
        | Raise _ => None
        | Ok info =>
            match ip info, hostname info with
            | Some i, Some h =>
                if bool_decide (device_key h i ∈ seen_devices) then None
                else Some {| dev_file := file info;
                             dev_filepath := filepath info;
                             dev_ip := i; dev_hostname := h |}
            | _, _ => None
            end
        end
    end.

Fixpoint scan_files (w : world) (files : list path_entry)
    (device_list : list device_descriptor) (seen_devices : gset string)
    : list device_descriptor :=
  match files with
  | [] => device_list
  | yaml_file :: rest =>
      match scan_file w yaml_file seen_devices with
      | Some d =>
          scan_files w rest (device_list ++ [d])
            ({[ device_key (dev_hostname d) (dev_ip d) ]} ∪ seen_devices)
      | None => scan_files w rest device_list seen_devices
      end
  end.

Definition extract_devices_from_yaml (w : world) : list device_descriptor :=
  if negb (dir_exists w) then []
  else scan_files w (rglob w) [] ∅.

Definition check (w : world) : bool :=
  let username := "admin" in
  let password := "C1sco12345!" in
  let device_list := extract_devices_from_yaml w in
  match device_list with
  | [] => false
  | _ :: _ => check_devices w device_list username password true
  end.

End Program.

(** ** The specification's words *)

(** The layered heuristic of the status parser, step by step. *)

(** Token scan: the first token after the interface name whose
    lower-cased value is a status keyword, ["not"] standing for
    ["notconnect"]. *)
Definition keyword_set : list string :=
  ["connected"; "notconnect"; "not"; "disabled"; "err-disabled"; "suspended"].

Definition token_scan (s : string) : option string :=
  match List.find (fun t => bool_decide (Py.lower t ∈ keyword_set))
                  (drop 1 (Py.split s)) with
  | Some t => Some (if Py.lower t =? "not" then "notconnect" else Py.lower t)
  | None => None
  end.

(** Full-line keyword search: the patterns in their order of priority,
    the first that is found in the lower-cased line wins. *)
Definition keyword_priority : list (regex * string) :=
  [ (err_disabled_re, "err-disabled"); (disabled_re, "disabled");
    (notconnect_re, "notconnect"); (suspended_re, "suspended");
    (connected_re, "connected") ].

Definition keyword_search (s : string) : option string :=
  match List.find (fun p => re_search (fst p) (Py.lower s)) keyword_priority with
  | Some p => Some (snd p)
  | None => None
  end.

(** The three strategies in their order of precedence. *)
Definition layered_status (s : string) : string :=
  match token_scan s with
  | Some k => k
  | None =>
      match keyword_search s with
      | Some k => k
      | None => column_status s "unknown"
      end
  end.

(** The fixed vocabulary of link states. *)
Definition status_vocabulary : list string :=
  ["connected"; "notconnect"; "disabled"; "err-disabled"; "suspended"].

(** A text without white space. *)
Fixpoint nospace (t : string) : bool :=
  match t with
  | EmptyString => true
  | String c t' => negb (Py.isspace c) && nospace t'
  end.

(** A property of [results] that a computation keeps. *)
Definition keeps {A} (P : results -> Prop) (m : M A) : Prop :=
  forall r, P r -> P (m r).1.

(** The reconciliation law on one result. *)
Definition reconciled (x : interface_result) : Prop :=
  matches_config x = Bool.eqb (status x =? "connected") (expected_enable x).

Definition all_reconciled (r : results) : Prop :=
  Forall reconciled (interface_results r).

(** The search for the identity fields. *)

(** The two fields that the search looks for. *)
Inductive field : Type := Address | Hostname.

Definition field_eqb (f g : field) : bool :=
  match f, g with
  | Address, Address | Hostname, Hostname => true
  | _, _ => false
  end.

(** The field that a key names, whatever its case. *)
Definition key_field (key : string) : option field :=
  if (Py.lower key =? "ip address") || (Py.lower key =? "ip_address")
  then Some Address
  else if Py.lower key =? "hostname" then Some Hostname
  else None.

(** The field that the key of an entry names: a key that is not a text
    names none. *)
Definition key_field_of (key : yaml) : option field :=
  match key with
  | YStr s => key_field s
  | _ => None
  end.

(** The occurrences of the two fields in a document, in the order of the
    traversal: the entries of a mapping in their order, the value of an
    entry that names no field being searched in its turn, and the items
    of a sequence in their order. *)
Fixpoint occurrences (obj : yaml) : list (field * yaml) :=
  match obj with
  | YMap entries =>
      flat_map (fun entry : yaml * yaml =>
                  let (key, value) := entry in
                  match key_field_of key with
                  | Some f => [(f, value)]
                  | None => occurrences value
                  end) entries
  | YSeq items => flat_map occurrences items
  | _ => []
  end.

(** The values found for one field, in the order of the traversal. *)
Definition values (f : field) (occs : list (field * yaml)) : list yaml :=
  omap (fun o => if field_eqb (fst o) f then Some (snd o) else None) occs.

(** [key.lower()] exists: the key is a text or bytes. *)
Definition has_lower (key : yaml) : bool :=
  match key with
  | YStr _ | YBytes _ => true
  | _ => false
  end.

(** Every key that the search meets in the document is a text or bytes:
    the keys of its mappings, and those of the values and items that the
    search goes into. *)
Fixpoint text_keys (obj : yaml) : bool :=
  match obj with
  | YMap entries =>
      forallb (fun entry : yaml * yaml =>
                 let (key, value) := entry in
                 has_lower key
                 && match key_field_of key with
                    | Some _ => true
                    | None => text_keys value
                    end) entries
  | YSeq items => forallb text_keys items
  | _ => true
  end.

(** The number of calls of [find_device_info] that the search of a
    document nests: one for the document, and those of the deepest of the
    values and items that it goes into. *)
Fixpoint search_depth (obj : yaml) : nat :=
  match obj with
  | YMap entries =>
      S (list_max
           (map (fun entry : yaml * yaml =>
                   let (key, value) := entry in
                   match key_field_of key with
                   | Some _ => 0
                   | None =>
                       if is_dict_or_list value then search_depth value else 0
                   end) entries))
  | YSeq items => S (list_max (map search_depth items))
  | _ => 1
  end.

(** A document that holds [doc] under [n] levels of sequences and
    mappings. *)
Fixpoint nest (n : nat) (doc : yaml) : yaml :=
  match n with
  | O => doc
  | S n' => YSeq [YMap [(YStr "node", nest n' doc)]]
  end.

(** The value that the last of the occurrences leaves in a field that
    held [old]. *)
Definition last_or (old : option yaml) (l : list yaml) : option yaml :=
  match last l with
  | Some v => Some v
  | None => old
  end.

Definition first_or (old : option yaml) (l : list yaml) : option yaml :=
  match head l with
  | Some v => Some v
  | None => old
  end.

(** The updates that a list of occurrences makes, one after the other. *)
Definition record_occurrence (info : device_info) (o : field * yaml)
    : device_info :=
  match fst o with
  | Address => set_ip (snd o) info
  | Hostname => set_hostname (snd o) info
  end.

(** ** The verdict in the specification's words *)

(** The conjunction of the flag [connected] of every device and of the
    flag [matches] of every interface of every device. *)
Definition fabric_verdict (rs : list results) : bool :=
  forallb connected rs
  && forallb (fun r => forallb matches_config (interface_results r)) rs.

(** The same tree with another listing. *)
Definition with_rglob (files : list path_entry) (w : world) : world :=
  {| dir_exists := dir_exists w; rglob := files; safe_load := safe_load w;
     recursion_budget := recursion_budget w;
     ConnectHandler := ConnectHandler w |}.

(** The text recorded for an exception. *)
Definition message_of (e : exn) : string :=
  match e with
  | NetmikoTimeoutException => "Connection Timeout"
  | NetmikoAuthenticationException => "Authentication Failed"
  | Exception text => "Error: " +:+ text
  end.

(** A file is eligible when it is a regular file with one of the two
    suffixes, at depth two or more. *)
Definition eligible (f : path_entry) : Prop :=
  is_file f = true
  /\ Py.lower (path_suffix f) ∈ [".yaml"; ".yml"]
  /\ (2 ≤ length (rel_parts f))%nat.

Definition comes_from (files : list path_entry) (d : device_descriptor) : Prop :=
  exists f, f ∈ files /\ eligible f
            /\ dev_filepath d = path_text f /\ dev_file d = path_name f.

Section Identity.

Variable py_str : yaml -> string.

(** The identity key of a device of the list. *)
Definition key_of (d : device_descriptor) : string :=
  device_key py_str (dev_hostname d) (dev_ip d).

(** The device that a file yields by itself, no key being seen yet. *)
Definition yields (w : world) (f : path_entry) : option device_descriptor :=
  scan_file py_str w f ∅.

(** The first file of a listing, in the order of discovery, that yields a
    device with the key [k]. *)
Fixpoint first_with_key (w : world) (k : string) (files : list path_entry)
    : option device_descriptor :=
  match files with
  | [] => None
  | f :: rest =>
      match yields w f with
      | Some d => if bool_decide (key_of d = k) then Some d
                  else first_with_key w k rest
      | None => first_with_key w k rest
      end
  end.

End Identity.

(** ** Examples *)

(** The line of the specification's example. *)
Definition uplink_line : string :=
  "Eth1/1   Server-Uplink   connected   1   full   1000   fiber".

(** A line whose status is not in the vocabulary. *)
Definition odd_line : string := "Eth1/1  foo  bar".

(** A document with two addresses, the second one nested. *)
Definition twice_addressed : yaml :=
  YMap [ (YStr "ip address", YStr "10.0.0.1");
         (YStr "hostname", YStr "leaf1");
         (YStr "backup", YMap [ (YStr "IP_Address", YStr "10.0.0.2") ]) ].

Definition blank_info : device_info :=
  {| file := "leaf1.yaml"; filepath := "node/leaf/leaf1.yaml";
     ip := None; hostname := None |}.

(** The identity fields of a device, under keys in mixed case. *)
Definition identity_doc (a h : yaml) : yaml :=
  YMap [ (YStr "IP Address", a); (YStr "HostName", h) ].

(** The text of the values that the examples give to the identity
    fields. *)
Definition text_of (v : yaml) : string :=
  match v with
  | YStr s => s
  | YNull => "None"
  | YBool true => "True"
  | YBool false => "False"
  | YOther _ _ repr => repr
  | _ => ""
  end.

(** The document of a leaf switch: one interface without policy,
    expected to be enabled, and one with a policy. *)
Definition leaf_doc : yaml :=
  YMap [ (YStr "Hostname", YStr "leaf1");
         (YStr "IP Address", YStr "10.0.0.1");
         (YStr "Interface",
          YSeq [ YMap [ (YStr "Name", YStr "Ethernet1/1");
                        (YStr "Interface Description", YStr "Server-Uplink");
                        (YStr "Enable Interface", YBool true) ];
                 YMap [ (YStr "Name", YStr "Ethernet1/2");
                        (YStr "Policy", YStr "trunk") ] ]) ].

Definition top_file : path_entry :=
  {| path_text := "node/fabric.yaml"; rel_parts := ["fabric.yaml"];
     is_file := true |}.

Definition leaf_dir : path_entry :=
  {| path_text := "node/leaf"; rel_parts := ["leaf"]; is_file := false |}.

Definition leaf_file : path_entry :=
  {| path_text := "node/leaf/leaf1.yaml"; rel_parts := ["leaf"; "leaf1.yaml"];
     is_file := true |}.

Definition leaf_copy : path_entry :=
  {| path_text := "node/leaf/leaf1_copy.yml";
     rel_parts := ["leaf"; "leaf1_copy.yml"]; is_file := true |}.

(** The answer of the switch to [show interface status]. *)
Definition status_output : string :=
  "Port  Name  Status" +:+ String newline uplink_line.

(** A session that answers, and one whose command fails. *)
Definition answering : connection :=
  {| send_command := fun _ => Ok status_output; disconnect := Ok tt |}.

Definition silent : connection :=
  {| send_command := fun _ => Raise (Exception "Pattern not detected");
     disconnect := Ok tt |}.

(** A tree with a document directly under the root, a device document
    and a copy of it; every document holds the identity of the leaf. *)
Definition fabric (session : result connection) : world :=
  {| dir_exists := true;
     rglob := [top_file; leaf_dir; leaf_file; leaf_copy];
     safe_load := fun _ => Ok leaf_doc;
     recursion_budget := 990;
     ConnectHandler := fun _ => session |}.

(** A tree without any document. *)
Definition empty_fabric : world :=
  {| dir_exists := true; rglob := [];
     safe_load := fun _ => Raise (Exception "No such file or directory");
     recursion_budget := 990;
     ConnectHandler := fun _ => Raise NetmikoTimeoutException |}.

Definition leaf_device : device_descriptor :=
  {| dev_file := "leaf1.yaml"; dev_filepath := "node/leaf/leaf1.yaml";
     dev_ip := YStr "10.0.0.1"; dev_hostname := YStr "leaf1" |}.

Definition leaf_copy_device : device_descriptor :=
  {| dev_file := "leaf1_copy.yml"; dev_filepath := "node/leaf/leaf1_copy.yml";
     dev_ip := YStr "10.0.0.1"; dev_hostname := YStr "leaf1" |}.

(** ** The main block, and further words for the properties *)


(** The dictionary [device] and the initial [results] of
    [check_device_interface_connectivity]. *)
Definition device_of (device_info : device_descriptor)
    (username password : string) : device_params :=
  {| device_type := "cisco_nxos"; host := dev_ip device_info;
     username := username; password := password;
     timeout := 30; session_timeout := 30 |}.

Definition initial_results (device_info : device_descriptor) : results :=
  {| connected := false; res_hostname := dev_hostname device_info;
     interface_results := []; error_message := "" |}.

(** [results] with more interface results at the end. *)
Definition append_all (xs : list interface_result) (r : results) : results :=
  {| connected := connected r; res_hostname := res_hostname r;
     interface_results := interface_results r ++ xs;
     error_message := error_message r |}.

(** The result that the loop records for an interface, when its name is a
    text. *)
Definition check_result (interface_status_map : gmap string string)
    (interface : interface_entry) : option interface_result :=
  match name interface with
  | YStr n =>
      let st :=
        default "not found"
          (interface_status_map !! Py.replace n "Ethernet" "Eth") in
      Some {| res_name := n; res_description := description interface;
              status := st; expected_enable := enable interface;
              matches_config := matches st (enable interface) |}
  | _ => None
  end.

(** The results for the interfaces that come before the first one whose
    name is not a text. *)
Fixpoint checked_prefix (interface_status_map : gmap string string)
    (interfaces : list interface_entry) : list interface_result :=
  match interfaces with
  | [] => []
  | interface :: rest =>
      match check_result interface_status_map interface with
      | Some x => x :: checked_prefix interface_status_map rest
      | None => []
      end
  end.

(** Every name is a text. *)
Definition all_text (interfaces : list interface_entry) : bool :=
  forallb (fun i => match name i with YStr _ => true | _ => false end)
          interfaces.

(** How the loop over the interfaces ends: it raises at the first name
    that is not a text. *)
Fixpoint loop_outcome (interfaces : list interface_entry) : result unit :=
  match interfaces with
  | [] => Ok tt
  | interface :: rest =>
      match name interface with
      | YStr _ => loop_outcome rest
      | other => Raise (replace_error other)
      end
  end.

(** The mapping has the text [k] among its keys. *)
Definition has_key (entries : list (yaml * yaml)) (k : string) : bool :=
  existsb (fun entry => eq_text (fst entry) k) entries.

(** The item is a mapping without the key ['Policy']. *)
Definition without_policy (item : yaml) : bool :=
  match item with
  | YMap entries => negb (has_key entries "Policy")
  | _ => false
  end.

(** The entry that an item of the sequence ['Interface'] gives. *)
Definition entry_of (item : yaml) : interface_entry :=
  let entries := match item with YMap entries => entries | _ => [] end in
  {| name := default (YStr "") (dict_get entries "Name");
     description := default (YStr "") (dict_get entries "Interface Description");
     enable :=
       normalize_enable
         (default (YBool true) (dict_get entries "Enable Interface")) |}.

(** The elements of a list without those whose key was seen or comes
    earlier in the list. *)
Fixpoint dedup_keys {A} (key : A -> string) (seen : gset string) (l : list A)
    : list A :=
  match l with
  | [] => []
  | d :: rest =>
      if bool_decide (key d ∈ seen) then dedup_keys key seen rest
      else d :: dedup_keys key ({[ key d ]} ∪ seen) rest
  end.

(** [old in s] *)
Fixpoint occurs_in (old s : string) : bool :=
  Py.startswith old s
  || match s with
     | EmptyString => false
     | String _ s' => occurs_in old s'
     end.

(** Two lines for the same interface. *)
Definition flapping_output : string :=
  "Eth1/1  uplink  connected" +:+ String newline "Eth1/1  uplink  disabled".

(** A line whose description holds the word of a status. *)
Definition described_line : string :=
  "Eth1/1 connected-to-core notconnect connected".

(** The answer of a device that does not know the command. *)
Definition rejected_output : string := "% Invalid command at '^' marker.".

(** A document with the identity of a device only, and a tree with it. *)
Definition bare_doc : yaml :=
  YMap [ (YStr "hostname", YStr "spine1"); (YStr "ip_address", YStr "10.0.0.9") ].

Definition spine_file : path_entry :=
  {| path_text := "node/spine/spine1.yaml";
     rel_parts := ["spine"; "spine1.yaml"]; is_file := true |}.

Definition spine_device : device_descriptor :=
  {| dev_file := "spine1.yaml"; dev_filepath := "node/spine/spine1.yaml";
     dev_ip := YStr "10.0.0.9"; dev_hostname := YStr "spine1" |}.

Definition bare_fabric (session : result connection) : world :=
  {| dir_exists := true; rglob := [spine_file];
     safe_load := fun _ => Ok bare_doc;
     recursion_budget := 990;
     ConnectHandler := fun _ => session |}.

(** A document whose second interface has a number for a name. *)
Definition numbered_doc : yaml :=
  YMap [ (YStr "hostname", YStr "leaf2");
         (YStr "ip address", YStr "10.0.0.2");
         (YStr "Interface",
          YSeq [ YMap [ (YStr "Name", YStr "Ethernet1/1") ];
                 YMap [ (YStr "Name", YInt 5) ];
                 YMap [ (YStr "Name", YStr "Ethernet1/3") ] ]) ].

Definition numbered_device : device_descriptor :=
  {| dev_file := "leaf2.yaml"; dev_filepath := "node/leaf/leaf2.yaml";
     dev_ip := YStr "10.0.0.2"; dev_hostname := YStr "leaf2" |}.

Definition numbered_fabric : world :=
  {| dir_exists := true;
     rglob := [ {| path_text := "node/leaf/leaf2.yaml";
                   rel_parts := ["leaf"; "leaf2.yaml"]; is_file := true |} ];
     safe_load := fun _ => Ok numbered_doc;
     recursion_budget := 990;
     ConnectHandler := fun _ => Ok answering |}.

(** A document with a number for a key, after the identity fields. *)
Definition vlan_doc : yaml :=
  YMap [ (YStr "hostname", YStr "leaf3");
         (YStr "ip address", YStr "10.0.0.3");
         (YInt 100, YStr "vlan") ].

(** A tree whose first document cannot be read, whose second has a
    number for a key, and whose third is the document of the leaf. *)
Definition broken_file : path_entry :=
  {| path_text := "node/leaf/broken.yaml";
     rel_parts := ["leaf"; "broken.yaml"]; is_file := true |}.

Definition vlan_file : path_entry :=
  {| path_text := "node/leaf/leaf3.yaml";
     rel_parts := ["leaf"; "leaf3.yaml"]; is_file := true |}.

Definition patchy_fabric : world :=
  {| dir_exists := true;
     rglob := [broken_file; vlan_file; leaf_file];
     safe_load := fun path =>
       if path =? "node/leaf/broken.yaml"
       then Raise (Exception "mapping values are not allowed here")
       else if path =? "node/leaf/leaf3.yaml" then Ok vlan_doc
       else Ok leaf_doc;
     recursion_budget := 990;
     ConnectHandler := fun _ => Ok answering |}.

(** ** Properties of the status parser *)

Lemma nospace_snoc t c :
  nospace t = true -> Py.isspace c = false ->
  nospace (t +:+ String c EmptyString) = true.
Proof.
  induction t as [|a t IH]; simpl; intros Ht Hc.
  - now rewrite Hc.
  - apply andb_true_iff in Ht as [Ha Ht]. rewrite Ha. simpl. auto.
Qed.

Lemma split_go_nospace s : forall cur,
  (forall t, cur = Some t -> nospace t = true) ->
  Forall (fun t => nospace t = true) (Py.split_go cur s).
Proof.
  induction s as [|c s IH]; intros cur Hcur; simpl.
  - destruct cur; constructor; auto.
  - destruct (Py.isspace c) eqn:Hc.
    + destruct cur as [t|].
      * constructor; [auto|]. apply IH. discriminate.
      * apply IH. discriminate.
    + destruct cur as [t|]; apply IH; intros t' [= <-].
      * apply nospace_snoc; auto.
      * simpl. now rewrite Hc.
Qed.

Lemma split_nospace s : Forall (fun t => nospace t = true) (Py.split s).
Proof. apply split_go_nospace. discriminate. Qed.

Lemma lstrip_nospace t : nospace t = true -> Py.lstrip t = t.
Proof.
  destruct t as [|c t]; simpl; [reflexivity|].
  intros H. apply andb_true_iff in H as [Hc _].
  apply negb_true_iff in Hc. now rewrite Hc.
Qed.

Lemma rstrip_nospace t : nospace t = true -> Py.rstrip t = t.
Proof.
  induction t as [|c t IH]; simpl; [reflexivity|].
  intros H. apply andb_true_iff in H as [Hc Ht].
  apply negb_true_iff in Hc. rewrite (IH Ht), Hc. now destruct t.
Qed.

(** [t.strip()] leaves a token of [s.split()] as it is. *)
Lemma strip_token t : nospace t = true -> Py.strip t = t.
Proof.
  intros H. unfold Py.strip. rewrite (lstrip_nospace _ H). now apply rstrip_nospace.
Qed.

Lemma status_keywords_spec tt :
  tt ∈ status_keywords <-> tt ∈ keyword_set.
Proof.
  unfold status_keywords, keyword_set. set_unfold. tauto.
Qed.

(** A keyword found by the token loop is never ["unknown"]. *)
Lemma keyword_not_unknown tt :
  tt ∈ keyword_set ->
  (if tt =? "not" then "notconnect" else tt) ∈ status_vocabulary
  /\ (if tt =? "not" then "notconnect" else tt) <> "unknown".
Proof.
  unfold keyword_set, status_vocabulary. intros H.
  repeat (apply elem_of_cons in H as [->|H]); simpl;
    try (split; [apply list_elem_of_In; simpl; tauto | discriminate]).
  now apply elem_of_nil in H.
Qed.

(** The token loop of the program computes the token scan. *)
Lemma scan_tokens_spec tokens status :
  Forall (fun t => nospace t = true) tokens ->
  scan_tokens tokens status =
  match List.find (fun t => bool_decide (Py.lower t ∈ keyword_set)) tokens with
  | Some t => if Py.lower t =? "not" then "notconnect" else Py.lower t
  | None => status
  end.
Proof.
  induction 1 as [|t tokens Ht _ IH]; simpl; [reflexivity|].
  rewrite (strip_token _ Ht).
  rewrite (bool_decide_ext _ _ (status_keywords_spec (Py.lower t))).
  destruct (bool_decide (Py.lower t ∈ keyword_set)); auto.
Qed.

Lemma token_scan_vocabulary s k :
  token_scan s = Some k -> k ∈ status_vocabulary /\ k <> "unknown".
Proof.
  unfold token_scan.
  destruct (List.find _ _) as [t|] eqn:Hfind; [|discriminate].
  intros [= <-]. apply List.find_some in Hfind as [_ Ht].
  apply bool_decide_eq_true in Ht. now apply keyword_not_unknown.
Qed.

Lemma keyword_search_vocabulary s k :
  keyword_search s = Some k -> k ∈ status_vocabulary.
Proof.
  unfold keyword_search.
  destruct (List.find _ _) as [p|] eqn:Hfind; [|discriminate].
  intros [= <-]. apply List.find_some in Hfind as [Hin _].
  unfold keyword_priority in Hin. simpl in Hin.
  unfold status_vocabulary.
  repeat (destruct Hin as [<-|Hin]; [apply list_elem_of_In; simpl; tauto|]).
  destruct Hin.
Qed.

(** The nested tests of the program follow the order of priority. *)
Lemma keyword_chain_spec s (last : string) :
  (if re_search err_disabled_re (Py.lower s) then "err-disabled"
   else if re_search disabled_re (Py.lower s) then "disabled"
   else if re_search notconnect_re (Py.lower s) then "notconnect"
   else if re_search suspended_re (Py.lower s) then "suspended"
   else if re_search connected_re (Py.lower s) then "connected"
   else last)
  = match keyword_search s with Some k => k | None => last end.
Proof.
  unfold keyword_search, keyword_priority. simpl.
  repeat (destruct (re_search _ _); [reflexivity|]). reflexivity.
Qed.

(** The body of the loop refines the layered heuristic. *)
Lemma line_status_layered s : line_status s = layered_status s.
Proof.
  unfold line_status, layered_status, token_scan, Py.slice_from_1.
  rewrite scan_tokens_spec
    by (apply Forall_drop, split_nospace).
  pose proof (token_scan_vocabulary s) as Hvoc. unfold token_scan in Hvoc.
  destruct (List.find _ _) as [t|].
  - destruct (Hvoc _ eq_refl) as [_ Hne].
    apply String.eqb_neq in Hne. now rewrite Hne.
  - simpl. apply keyword_chain_spec.
Qed.

(** The last resort, by the columns and tokens of the line. *)
Lemma column_status_spec s status :
  column_status s status =
  match re_split columns_re s !! 2%nat, Py.split s !! 2%nat with
  | Some c, _ => Py.lower (Py.strip c)
  | None, Some t => Py.lower (Py.strip t)
  | None, None => status
  end.
Proof.
  unfold column_status.
  destruct (re_split columns_re s) as [|? [|? [|c parts]]];
    destruct (Py.split s) as [|? [|? [|t tokens]]]; reflexivity.
Qed.

(** What a line adds to the map. *)
Lemma parse_line_lookup m line k v :
  parse_line m line !! k = Some v ->
  m !! k = Some v
  \/ (re_match interface_re (Py.lstrip line) = Some k
      /\ v = line_status (Py.lstrip line)).
Proof.
  unfold parse_line.
  destruct (re_match interface_re (Py.lstrip line)) as [i|]; [|auto].
  rewrite lookup_insert. case_decide as Hik.
  - intros [= <-]. subst. auto.
  - auto.
Qed.

(** Every entry of the map comes from a line of the output. *)
Lemma foldl_parse_line_lookup lines : forall m k v,
  foldl parse_line m lines !! k = Some v ->
  m !! k = Some v
  \/ exists line, line ∈ lines
       /\ re_match interface_re (Py.lstrip line) = Some k
       /\ v = line_status (Py.lstrip line).
Proof.
  induction lines as [|line lines IH]; simpl; intros m k v H; [auto|].
  apply IH in H as [H|(l & Hl & Hm & Hv)].
  - apply parse_line_lookup in H as [H|[Hm Hv]]; [auto|].
    right. exists line. split; [apply list_elem_of_here | auto].
  - right. exists l. split; [now apply list_elem_of_further | auto].
Qed.

(** C4. A line that begins with an interface name is given the status of
    the layered heuristic: the token scan first (the first token after
    the name whose lower-cased value is a keyword, ["not"] read as
    ["notconnect"]), the keyword search on the whole line, in its order
    of priority, only when the token scan found nothing.  The example
    line gets [connected] for [Eth1/1] from the token scan. *)
Theorem token_scan_before_keyword_search
    (m : gmap string string) (line interface : string) :
  re_match interface_re (Py.lstrip line) = Some interface ->
  parse_line m line
  = <[interface :=
        match token_scan (Py.lstrip line) with
        | Some k => k
        | None =>
            match keyword_search (Py.lstrip line) with
            | Some k => k
            | None => column_status (Py.lstrip line) "unknown"
            end
        end]> m
  /\ token_scan uplink_line = Some "connected"
  /\ parse_interface_status_output uplink_line = {[ "Eth1/1" := "connected" ]}.
Proof.
  intros Hm. split; [|split].
  - unfold parse_line. rewrite Hm, line_status_layered. reflexivity.
  - vm_compute. reflexivity.
  - vm_compute. reflexivity.
Qed.

Lemma token_scan_before_keyword_search_witness :
  re_match interface_re (Py.lstrip uplink_line) = Some "Eth1/1"
  /\ parse_line ∅ uplink_line !! "Eth1/1" = Some "connected".
Proof.
  split; [vm_compute; reflexivity|].
  destruct (token_scan_before_keyword_search ∅ uplink_line "Eth1/1") as [H _].
  - vm_compute. reflexivity.
  - rewrite H. vm_compute. reflexivity.
Defined.

(** C5, as stated, fails: the last resort stores the third column as it
    is. *)
Lemma status_outside_vocabulary :
  ~ (forall output k v,
       parse_interface_status_output output !! k = Some v ->
       v ∈ status_vocabulary \/ v = "unknown").
Proof.
  intros H.
  destruct (H odd_line "Eth1/1" "bar") as [Hin| Heq].
  - vm_compute. reflexivity.
  - unfold status_vocabulary in Hin.
    repeat (apply elem_of_cons in Hin as [Hin|Hin]; [discriminate|]).
    now apply elem_of_nil in Hin.
  - discriminate.
Qed.

(** C5, amended. A status stored in the map is a word of the vocabulary,
    found by the token scan or the keyword search, or else, on a line
    where neither finds a keyword, the lower-cased third column of the
    line, or its lower-cased third token, or ["unknown"] when the line
    has fewer than three of each. *)
Theorem status_values (output k v : string) :
  parse_interface_status_output output !! k = Some v ->
  v ∈ status_vocabulary
  \/ exists line,
       line ∈ Py.split_char newline output
       /\ re_match interface_re (Py.lstrip line) = Some k
       /\ token_scan (Py.lstrip line) = None
       /\ keyword_search (Py.lstrip line) = None
       /\ v = match re_split columns_re (Py.lstrip line) !! 2%nat,
                    Py.split (Py.lstrip line) !! 2%nat with
              | Some c, _ => Py.lower (Py.strip c)
              | None, Some t => Py.lower (Py.strip t)
              | None, None => "unknown"
              end.
Proof.
  unfold parse_interface_status_output. intros H.
  apply foldl_parse_line_lookup in H as [H|(line & Hl & Hm & ->)].
  - now rewrite lookup_empty in H.
  - rewrite line_status_layered. unfold layered_status.
    destruct (token_scan (Py.lstrip line)) as [k'|] eqn:Ht.
    + left. now apply token_scan_vocabulary in Ht as [? _].
    + destruct (keyword_search (Py.lstrip line)) as [k'|] eqn:Hk.
      * left. now apply keyword_search_vocabulary in Hk.
      * right. exists line. rewrite column_status_spec. auto.
Qed.

Lemma status_values_witness :
  parse_interface_status_output odd_line !! "Eth1/1" = Some "bar"
  /\ ("bar" ∈ status_vocabulary
      \/ exists line,
           line ∈ Py.split_char newline odd_line
           /\ re_match interface_re (Py.lstrip line) = Some "Eth1/1"
           /\ token_scan (Py.lstrip line) = None
           /\ keyword_search (Py.lstrip line) = None
           /\ "bar" = match re_split columns_re (Py.lstrip line) !! 2%nat,
                           Py.split (Py.lstrip line) !! 2%nat with
                     | Some c, _ => Py.lower (Py.strip c)
                     | None, Some t => Py.lower (Py.strip t)
                     | None, None => "unknown"
                     end).
Proof.
  split; [vm_compute; reflexivity|].
  apply (status_values odd_line "Eth1/1" "bar"). vm_compute. reflexivity.
Defined.

(** ** Properties of the reconciliation *)

Lemma keeps_ret {A} P (a : A) : keeps P (mret a).
Proof. intros r Hr. exact Hr. Qed.

Lemma keeps_call {A} P (x : result A) : keeps P (call x).
Proof. intros r Hr. exact Hr. Qed.

Lemma keeps_update P f : (forall r, P r -> P (f r)) -> keeps P (update f).
Proof. intros Hf r Hr. now apply Hf. Qed.

Lemma keeps_bind {A B} P (m : M A) (f : A -> M B) :
  keeps P m -> (forall a, keeps P (f a)) -> keeps P (m ≫= f).
Proof.
  intros Hm Hf r Hr. unfold mbind, M_bind.
  specialize (Hm r Hr). destruct (m r) as [r' [a|e]]; simpl in *; [|exact Hm].
  now apply Hf.
Qed.

Lemma matches_law s e : matches s e = Bool.eqb (s =? "connected") e.
Proof. unfold matches. now destruct (s =? "connected"), e. Qed.

Lemma check_interface_reconciled m i : keeps all_reconciled (check_interface m i).
Proof.
  unfold check_interface. apply keeps_bind; [apply keeps_call|].
  intros n. apply keeps_update. intros r Hr.
  unfold all_reconciled, append_interface_result in *. simpl.
  apply Forall_app. split; [exact Hr|].
  constructor; [|constructor]. unfold reconciled. simpl. apply matches_law.
Qed.

Lemma check_interfaces_reconciled m l : keeps all_reconciled (check_interfaces m l).
Proof.
  induction l as [|i l IH]; simpl.
  - apply keeps_ret.
  - apply keeps_bind; [apply check_interface_reconciled|]. intros _. exact IH.
Qed.

Lemma try_body_reconciled w device device_info :
  keeps all_reconciled (try_body w device device_info).
Proof.
  unfold try_body. apply keeps_bind; [apply keeps_call|]. intros c.
  apply keeps_bind; [apply keeps_update; auto|]. intros _.
  apply keeps_bind; [|intros _; apply keeps_call].
  destruct (get_interfaces_without_policy w (dev_filepath device_info)).
  - apply keeps_ret.
  - apply keeps_bind; [apply keeps_call|]. intros out.
    apply check_interfaces_reconciled.
Qed.

(** C2. The flag [matches] of every result that
    [check_device_interface_connectivity] records equals
    [(status == "connected") == expectedEnabled]; a status other than
    [connected], [unknown] and [not found] among them, counts as not
    connected. *)
Theorem reconciliation_law (w : world) (device_info : device_descriptor)
    (username password : string) (s : string) (e : bool) :
  matches s e = Bool.eqb (s =? "connected") e
  /\ matches s e = (if s =? "connected" then e else negb e)
  /\ matches "unknown" e = negb e
  /\ matches "not found" e = negb e
  /\ Forall (fun x => matches_config x
                      = Bool.eqb (status x =? "connected") (expected_enable x))
       (interface_results
          (check_device_interface_connectivity w device_info username password)).
Proof.
  split; [apply matches_law|].
  split; [unfold matches; now destruct (s =? "connected"), e|].
  split; [now destruct e|]. split; [now destruct e|].
  unfold check_device_interface_connectivity.
  match goal with |- context [try_body ?w ?d ?i ?r] =>
    pose proof (try_body_reconciled w d i r) as H;
    destruct (try_body w d i r) as [r' [a|[| |text]]]
  end; simpl in *; apply H; constructor.
Qed.


(** ** Properties of the search for the identity fields *)

Lemma foldl_record_app info l1 l2 :
  foldl record_occurrence info (l1 ++ l2)%list
  = foldl record_occurrence (foldl record_occurrence info l1) l2.
Proof. apply foldl_app. Qed.

Lemma occurrences_scalar value :
  is_dict_or_list value = false -> occurrences value = [].
Proof. now destruct value. Qed.

Lemma search_depth_pos obj : (1 ≤ search_depth obj)%nat.
Proof. destruct obj; simpl; lia. Qed.

(** A loop whose body makes the updates of the occurrences of each
    element makes those of all the elements, in their order. *)
Lemma for_each_occurrences {A} (body : A -> device_info -> result device_info)
    (occ : A -> list (field * yaml)) (l : list A) :
  (forall x info, x ∈ l ->
     body x info = Ok (foldl record_occurrence info (occ x))) ->
  forall info,
    for_each body l info = Ok (foldl record_occurrence info (flat_map occ l)).
Proof.
  induction l as [|x l IH]; intros Hbody info; [reflexivity|].
  simpl. rewrite Hbody by apply list_elem_of_here.
  rewrite foldl_record_app. apply IH.
  intros y info' Hy. apply Hbody. now apply list_elem_of_further.
Qed.

(** The body of the loop over a mapping, for a key that is a text or
    bytes. *)
Lemma visit_entry_occurrences find key value info :
  has_lower key = true ->
  (is_dict_or_list value = true -> key_field_of key = None ->
   find value info = Ok (foldl record_occurrence info (occurrences value))) ->
  visit_entry find (key, value) info
  = Ok (foldl record_occurrence info
          match key_field_of key with
          | Some f => [(f, value)]
          | None => occurrences value
          end).
Proof.
  intros Hkey Hfind. unfold visit_entry.
  destruct key as [| | |s|b| | |]; try discriminate Hkey; simpl in *.
  - unfold key_field in *.
    destruct ((Py.lower s =? "ip address") || (Py.lower s =? "ip_address"));
      [reflexivity|].
    destruct (Py.lower s =? "hostname"); [reflexivity|].
    destruct (is_dict_or_list value) eqn:Hc; [now apply Hfind|].
    now rewrite occurrences_scalar.
  - destruct (is_dict_or_list value) eqn:Hc; [now apply Hfind|].
    now rewrite occurrences_scalar.
Qed.

Lemma forallb_elem_of {A} (f : A -> bool) (l : list A) (x : A) :
  forallb f l = true -> x ∈ l -> f x = true.
Proof.
  intros H Hx. rewrite forallb_forall in H. apply H. now apply list_elem_of_In.
Qed.

Lemma list_max_elem_of {A} (f : A -> nat) (l : list A) (x : A) (n : nat) :
  (list_max (map f l) ≤ n)%nat -> x ∈ l -> (f x ≤ n)%nat.
Proof.
  intros H Hx. apply list_max_le in H. rewrite List.Forall_forall in H.
  apply H. apply in_map. now apply list_elem_of_In.
Qed.

(** Within the depth allowed, the search makes the updates of the
    occurrences, in their order. *)
Lemma find_device_info_occurrences depth : forall obj info,
  text_keys obj = true ->
  (search_depth obj ≤ depth)%nat ->
  find_device_info depth obj info
  = Ok (foldl record_occurrence info (occurrences obj)).
Proof.
  induction depth as [|d IH]; intros obj info Hk Hd.
  - pose proof (search_depth_pos obj). lia.
  - destruct obj as [| | | | |items|entries|]; try reflexivity.
    + change (text_keys (YSeq items)) with (forallb text_keys items) in Hk.
      change (search_depth (YSeq items))
        with (S (list_max (map search_depth items))) in Hd.
      apply le_S_n in Hd.
      apply (for_each_occurrences (find_device_info d) occurrences).
      intros x info' Hx. apply IH.
      * exact (forallb_elem_of _ _ _ Hk Hx).
      * exact (list_max_elem_of _ _ _ _ Hd Hx).
    + cbn [text_keys search_depth] in Hk, Hd. apply le_S_n in Hd.
      cbn [find_device_info occurrences].
      apply (for_each_occurrences (visit_entry (find_device_info d))).
      intros [key value] info' Hx.
      pose proof (forallb_elem_of _ _ _ Hk Hx) as Hkx.
      pose proof (list_max_elem_of _ _ _ _ Hd Hx) as Hdx.
      cbv beta iota in Hkx, Hdx. apply andb_true_iff in Hkx as [Hkey Hvalue].
      apply visit_entry_occurrences; [exact Hkey|].
      intros Hc Hf. rewrite Hf, Hc in Hdx. rewrite Hf in Hvalue.
      now apply IH.
Qed.

(** A loop that goes too deep for one of its elements raises, when its
    body returns for the elements that are not too deep. *)
Lemma for_each_too_deep {A} (body : A -> device_info -> result device_info)
    (deep : A -> nat) (d : nat) (l : list A) :
  (forall x info, x ∈ l -> (deep x ≤ d)%nat ->
     exists info', body x info = Ok info') ->
  (forall x info, x ∈ l -> (d < deep x)%nat ->
     body x info = Raise recursion_error) ->
  (d < list_max (map deep l))%nat ->
  forall info, for_each body l info = Raise recursion_error.
Proof.
  induction l as [|x l IH]; intros Hok Hraise Hd info; simpl in Hd; [lia|].
  simpl. destruct (le_lt_dec (deep x) d) as [Hx|Hx].
  - destruct (Hok x info (list_elem_of_here _ _) Hx) as [info' ->].
    apply IH; [| |lia].
    + intros y i Hy. apply Hok. now apply list_elem_of_further.
    + intros y i Hy. apply Hraise. now apply list_elem_of_further.
  - now rewrite (Hraise x info (list_elem_of_here _ _) Hx).
Qed.

(** Beyond the depth allowed, the search raises [RecursionError]. *)
Lemma find_device_info_too_deep depth : forall obj info,
  text_keys obj = true ->
  (depth < search_depth obj)%nat ->
  find_device_info depth obj info = Raise recursion_error.
Proof.
  induction depth as [|d IH]; intros obj info Hk Hd; [reflexivity|].
  destruct obj as [| | | | |items|entries|]; simpl in Hd; try lia.
  - change (text_keys (YSeq items)) with (forallb text_keys items) in Hk.
    apply (for_each_too_deep (find_device_info d) search_depth d); [| |lia].
    + intros x i Hx Hdx. eexists. apply find_device_info_occurrences;
        [exact (forallb_elem_of _ _ _ Hk Hx) | exact Hdx].
    + intros x i Hx Hdx. apply IH;
        [exact (forallb_elem_of _ _ _ Hk Hx) | exact Hdx].
  - cbn [text_keys] in Hk. cbn [find_device_info].
    apply (for_each_too_deep (visit_entry (find_device_info d))
             (fun entry : yaml * yaml =>
                let (key, value) := entry in
                match key_field_of key with
                | Some _ => 0%nat
                | None =>
                    if is_dict_or_list value then search_depth value else 0%nat
                end) d entries); [| |lia].
    + intros [key value] i Hx Hdx.
      pose proof (forallb_elem_of _ _ _ Hk Hx) as Hkx. cbv beta iota in Hkx.
      apply andb_true_iff in Hkx as [Hkey Hvalue]. eexists.
      apply visit_entry_occurrences; [exact Hkey|].
      intros Hc Hf. cbv beta iota in Hdx. rewrite Hf, Hc in Hdx.
      rewrite Hf in Hvalue. now apply find_device_info_occurrences.
    + intros [key value] i Hx Hdx.
      pose proof (forallb_elem_of _ _ _ Hk Hx) as Hkx. cbv beta iota in Hkx.
      apply andb_true_iff in Hkx as [Hkey Hvalue].
      cbv beta iota in Hdx.
      destruct (key_field_of key) eqn:Hf; [lia|].
      destruct (is_dict_or_list value) eqn:Hc; [|lia].
      unfold visit_entry.
      destruct key as [| | |s|b| | |]; try discriminate Hkey; simpl in Hf |- *.
      * unfold key_field in Hf.
        destruct ((Py.lower s =? "ip address") || (Py.lower s =? "ip_address"));
          [discriminate|].
        destruct (Py.lower s =? "hostname"); [discriminate|].
        rewrite Hc. now apply IH.
      * rewrite Hc. now apply IH.
Qed.

Lemma last_or_cons old v l : last_or old (v :: l) = last_or (Some v) l.
Proof.
  unfold last_or. destruct l as [|x l]; [reflexivity|].
  rewrite last_cons_cons. destruct (last (x :: l)) eqn:E; [reflexivity|].
  now apply last_None in E.
Qed.

Lemma record_occurrences_fields l : forall info,
  let info' := foldl record_occurrence info l in
  file info' = file info /\ filepath info' = filepath info
  /\ ip info' = last_or (ip info) (values Address l)
  /\ hostname info' = last_or (hostname info) (values Hostname l).
Proof.
  induction l as [|[f v] l IH]; intros info; [now cbn|].
  destruct (IH (record_occurrence info (f, v))) as (H1 & H2 & H3 & H4).
  cbn zeta. simpl foldl. rewrite H1, H2, H3, H4.
  destruct f; unfold values; simpl; rewrite ?last_or_cons; auto.
Qed.

Lemma nest_is_dict_or_list n a h : is_dict_or_list (nest n (identity_doc a h)) = true.
Proof. now destruct n. Qed.

Lemma nest_text_keys n a h : text_keys (nest n (identity_doc a h)) = true.
Proof.
  induction n as [|n IH]; [reflexivity|].
  cbn [nest text_keys forallb has_lower key_field_of].
  change (key_field "node") with (@None field). now rewrite IH.
Qed.

Lemma nest_search_depth n a h :
  search_depth (nest n (identity_doc a h)) = (2 * n + 1)%nat.
Proof.
  induction n as [|n IH]; [reflexivity|].
  cbn [nest search_depth map list_max key_field_of].
  change (key_field "node") with (@None field).
  rewrite nest_is_dict_or_list, IH. simpl list_max. lia.
Qed.

Lemma nest_occurrences n a h :
  occurrences (nest n (identity_doc a h)) = [(Address, a); (Hostname, h)].
Proof.
  induction n as [|n IH]; [reflexivity|].
  cbn [nest occurrences flat_map key_field_of].
  change (key_field "node") with (@None field).
  rewrite IH. reflexivity.
Qed.

(** C6, as stated, fails: of two addresses, the search keeps the second. *)
Lemma first_occurrence_does_not_win :
  ~ (forall depth obj info info',
       find_device_info depth obj info = Ok info' ->
       ip info' = first_or (ip info) (values Address (occurrences obj))).
Proof.
  intros H.
  specialize (H 5%nat twice_addressed blank_info
                (set_ip (YStr "10.0.0.2")
                   (set_hostname (YStr "leaf1")
                      (set_ip (YStr "10.0.0.1") blank_info))) eq_refl).
  vm_compute in H. discriminate H.
Qed.

(** C6, amended. In a document whose keys, where the search meets them,
    are texts or bytes, the search goes through the mappings and
    sequences as deep as the limit of recursion allows, and matches the
    keys whatever their case; of several keys that name the same field,
    the last one met in the order of the traversal gives the value, each
    occurrence replacing the value taken from the one before.  A document
    nested deeper than the limit allows makes the search raise
    [RecursionError]. *)
Theorem last_occurrence_wins (depth : nat) (obj : yaml) (info : device_info)
    (n : nat) (a h : yaml) :
  text_keys obj = true ->
  ((search_depth obj ≤ depth)%nat ->
   exists info',
     find_device_info depth obj info = Ok info'
     /\ ip info' = last_or (ip info) (values Address (occurrences obj))
     /\ hostname info' = last_or (hostname info) (values Hostname (occurrences obj))
     /\ file info' = file info /\ filepath info' = filepath info)
  /\ ((depth < search_depth obj)%nat ->
      find_device_info depth obj info = Raise recursion_error)
  /\ ((2 * n < depth)%nat ->
      find_device_info depth (nest n (identity_doc a h)) info
      = Ok (set_hostname h (set_ip a info)))
  /\ ((depth ≤ 2 * n)%nat ->
      find_device_info depth (nest n (identity_doc a h)) info
      = Raise recursion_error).
Proof.
  intros Hk. split; [|split; [|split]].
  - intros Hd. exists (foldl record_occurrence info (occurrences obj)).
    split; [now apply find_device_info_occurrences|].
    destruct (record_occurrences_fields (occurrences obj) info)
      as (H1 & H2 & H3 & H4).
    auto.
  - intros Hd. now apply find_device_info_too_deep.
  - intros Hd. rewrite find_device_info_occurrences.
    + now rewrite nest_occurrences.
    + apply nest_text_keys.
    + rewrite nest_search_depth. lia.
  - intros Hd. apply find_device_info_too_deep.
    + apply nest_text_keys.
    + rewrite nest_search_depth. lia.
Qed.

Lemma last_occurrence_wins_witness :
  text_keys twice_addressed = true
  /\ exists info',
       find_device_info 990 twice_addressed blank_info = Ok info'
       /\ ip info' = Some (YStr "10.0.0.2").
Proof.
  split; [reflexivity|].
  destruct (last_occurrence_wins 990 twice_addressed blank_info 0 YNull YNull
              eq_refl) as [H _].
  destruct H as (info' & Hf & Hip & _).
  - vm_compute. lia.
  - exists info'. split; [exact Hf|]. rewrite Hip. reflexivity.
Defined.

(** ** Properties of the discovery and of the verdict *)

Section Fabric.

Variable py_str : yaml -> string.

Lemma for_each_file {A} (body : A -> device_info -> result device_info)
    (l : list A) :
  (forall x info info', body x info = Ok info' ->
     file info' = file info /\ filepath info' = filepath info) ->
  forall info info', for_each body l info = Ok info' ->
    file info' = file info /\ filepath info' = filepath info.
Proof.
  intros Hbody. induction l as [|x l IH]; intros info info' H; simpl in H.
  - injection H as <-. auto.
  - destruct (body x info) as [i|] eqn:E; [|discriminate].
    destruct (Hbody _ _ _ E) as [H1 H2]. destruct (IH _ _ H) as [H3 H4].
    split; congruence.
Qed.

Lemma find_device_info_file depth : forall obj info info',
  find_device_info depth obj info = Ok info' ->
  file info' = file info /\ filepath info' = filepath info.
Proof.
  induction depth as [|d IH]; intros obj info info' H; [discriminate|].
  destruct obj as [| | | | |items|entries|]; try (injection H as <-; auto).
  - apply (for_each_file (find_device_info d) items IH _ _ H).
  - apply (for_each_file (visit_entry (find_device_info d)) entries) in H;
      [exact H|].
    intros [key value] i i' Hv. unfold visit_entry in Hv.
    destruct (py_lower key) as [lower|]; [|discriminate].
    destruct (_ || _); [injection Hv as <-; auto|].
    destruct (eq_text lower "hostname"); [injection Hv as <-; auto|].
    destruct (is_dict_or_list value); [now apply IH in Hv|].
    injection Hv as <-; auto.
Qed.

(** What [scan_file] yields comes from an eligible file. *)
Lemma scan_file_eligible w f seen d :
  scan_file py_str w f seen = Some d ->
  eligible f /\ dev_filepath d = path_text f /\ dev_file d = path_name f.
Proof.
  unfold scan_file, eligible.
  destruct (is_file f); simpl; [|discriminate].
  case_bool_decide as Hs; simpl; [|discriminate].
  case_bool_decide as Hd; [discriminate|].
  destruct (safe_load w (path_text f)) as [data|]; [|discriminate].
  destruct (find_device_info _ data _) as [info|] eqn:E; [|discriminate].
  apply find_device_info_file in E as [Hf Hp]. simpl in Hf, Hp.
  destruct (ip info), (hostname info); try discriminate.
  case_bool_decide; [discriminate|]. intros [= <-]. simpl.
  repeat split; auto. lia.
Qed.

(** A file directly under the root yields nothing. *)
Lemma scan_file_top w f seen :
  length (rel_parts f) = 1%nat -> scan_file py_str w f seen = None.
Proof.
  intros Hd. unfold scan_file.
  destruct (is_file f); simpl; [|reflexivity].
  case_bool_decide; simpl; [|reflexivity].
  case_bool_decide; [reflexivity | lia].
Qed.

(** The keys seen decide only whether the device that a file yields is
    kept. *)
Lemma scan_file_seen w f seen :
  scan_file py_str w f seen =
  match yields py_str w f with
  | Some d => if bool_decide (key_of py_str d ∈ seen) then None else Some d
  | None => None
  end.
Proof.
  unfold yields, scan_file, key_of.
  destruct (is_file f); simpl; [|reflexivity].
  case_bool_decide; simpl; [|reflexivity].
  case_bool_decide; [reflexivity|].
  destruct (safe_load w (path_text f)) as [data|]; [|reflexivity].
  destruct (find_device_info _ data _) as [info|]; [|reflexivity].
  destruct (ip info), (hostname info); reflexivity.
Qed.

Lemma scan_files_skip w before f after : forall device_list seen,
  (forall seen', scan_file py_str w f seen' = None) ->
  scan_files py_str w (before ++ f :: after) device_list seen
  = scan_files py_str w (before ++ after) device_list seen.
Proof.
  induction before as [|g before IH]; intros device_list seen Hf; simpl.
  - now rewrite Hf.
  - destruct (scan_file py_str w g seen); now apply IH.
Qed.

Lemma scan_files_with_rglob w l files : forall device_list seen,
  scan_files py_str (with_rglob l w) files device_list seen
  = scan_files py_str w files device_list seen.
Proof.
  induction files as [|f files IH]; intros device_list seen; [reflexivity|].
  simpl. change (scan_file py_str (with_rglob l w) f seen)
    with (scan_file py_str w f seen).
  destruct (scan_file py_str w f seen); apply IH.
Qed.

Lemma scan_files_come_from w all files : forall device_list seen,
  files ⊆ all ->
  Forall (comes_from all) device_list ->
  Forall (comes_from all) (scan_files py_str w files device_list seen).
Proof.
  induction files as [|f files IH]; intros device_list seen Hsub Hdl; [exact Hdl|].
  simpl. assert (files ⊆ all) by set_solver.
  destruct (scan_file py_str w f seen) as [d|] eqn:E; [|now apply IH].
  apply IH; [assumption|]. apply Forall_app. split; [exact Hdl|].
  constructor; [|constructor].
  apply scan_file_eligible in E as (He & Hp & Hn).
  exists f. split; [set_solver | auto].
Qed.

(** C7. A file directly under the root adds no device to the list,
    whatever it holds: it yields nothing, and the list is the one of the
    tree without it.  Every device of the list comes from a regular file
    at depth two or more whose suffix is one of the two. *)
Theorem top_level_files_skipped (w : world) (before after : list path_entry)
    (f : path_entry) :
  rglob w = (before ++ f :: after)%list ->
  length (rel_parts f) = 1%nat ->
  (forall w' seen, scan_file py_str w' f seen = None)
  /\ extract_devices_from_yaml py_str w
     = extract_devices_from_yaml py_str (with_rglob (before ++ after) w)
  /\ Forall (fun d => exists g,
               g ∈ (before ++ after)%list
               /\ is_file g = true
               /\ Py.lower (path_suffix g) ∈ [".yaml"; ".yml"]
               /\ (2 ≤ length (rel_parts g))%nat
               /\ dev_filepath d = path_text g /\ dev_file d = path_name g)
       (extract_devices_from_yaml py_str w).
Proof.
  intros Hw Hd.
  assert (Htop : forall w' seen, scan_file py_str w' f seen = None)
    by (intros; now apply scan_file_top).
  assert (Heq : extract_devices_from_yaml py_str w
     = extract_devices_from_yaml py_str (with_rglob (before ++ after) w)).
  { unfold extract_devices_from_yaml. simpl.
    destruct (dir_exists w); simpl; [|reflexivity].
    rewrite Hw, scan_files_skip by auto. now rewrite scan_files_with_rglob. }
  split; [exact Htop|]. split; [exact Heq|].
  rewrite Heq. unfold extract_devices_from_yaml. simpl.
  destruct (dir_exists w); simpl; [|constructor].
  rewrite scan_files_with_rglob.
  eapply Forall_impl; [apply (scan_files_come_from w (before ++ after)%list)|].
  - set_solver.
  - constructor.
  - intros d (g & Hg & (H1 & H2 & H3) & H4 & H5). exists g. auto 10.
Qed.

(** The devices of the list that have the key [k]: the ones already
    listed and, unless the key was seen, the first that the files
    yield. *)
Lemma scan_files_key w k files : forall device_list seen,
  filter (fun d => key_of py_str d = k) (scan_files py_str w files device_list seen)
  = (filter (fun d => key_of py_str d = k) device_list
     ++ (if bool_decide (k ∈ seen) then []
         else option_list (first_with_key py_str w k files)))%list.
Proof.
  induction files as [|f files IH]; intros device_list seen; simpl.
  - case_bool_decide; now rewrite app_nil_r.
  - rewrite scan_file_seen. destruct (yields py_str w f) as [d|]; [|apply IH].
    case_bool_decide as Hseen.
    + rewrite IH. case_bool_decide as Hk; [reflexivity|].
      rewrite bool_decide_eq_false_2; [reflexivity|]. intros <-. auto.
    + rewrite IH, filter_app, filter_cons, filter_nil.
      case_decide as Hd.
      * rewrite bool_decide_eq_true_2 by set_solver.
        rewrite bool_decide_eq_false_2 by (rewrite <- Hd; exact Hseen).
        rewrite (bool_decide_eq_true_2 _ Hd). simpl. now rewrite app_nil_r.
      * rewrite (bool_decide_eq_false_2 _ Hd), app_nil_r.
        assert (Hiff : k ∈ ({[key_of py_str d]} ∪ seen : gset string) <-> k ∈ seen).
        { rewrite elem_of_union, elem_of_singleton.
          split; [intros [Heq|Hin]; [congruence | exact Hin] | auto]. }
        now rewrite (bool_decide_ext _ _ Hiff).
Qed.

Lemma first_with_key_app w k l1 l2 :
  first_with_key py_str w k (l1 ++ l2)
  = match first_with_key py_str w k l1 with
    | Some d => Some d
    | None => first_with_key py_str w k l2
    end.
Proof.
  induction l1 as [|f l1 IH]; simpl; [reflexivity|].
  destruct (yields py_str w f) as [d|]; [|exact IH].
  case_bool_decide; [reflexivity | exact IH].
Qed.

Lemma first_with_key_found w k l f d :
  yields py_str w f = Some d -> key_of py_str d = k ->
  exists d0, first_with_key py_str w k (l ++ [f]) = Some d0 /\ key_of py_str d0 = k.
Proof.
  intros Hy Hk. induction l as [|g l IH]; simpl.
  - rewrite Hy, (bool_decide_eq_true_2 _ Hk). eauto.
  - destruct (yields py_str w g) as [d'|]; [|exact IH].
    case_bool_decide; eauto.
Qed.

(** No two devices of the list have the same key. *)
Lemma unique_keys_NoDup {A} (f : A -> string) (l : list A) :
  (forall k, (length (filter (fun x => f x = k) l) ≤ 1)%nat) ->
  NoDup (f <$> l).
Proof.
  induction l as [|x l IH]; intros H; [constructor|].
  rewrite fmap_cons. constructor.
  - intros Hin. apply list_elem_of_fmap in Hin as (y & Hy & Hin).
    specialize (H (f x)). rewrite filter_cons in H.
    case_decide as Hx; [|congruence]. simpl in H.
    assert (Hy' : y ∈ filter (fun z => f z = f x) l)
      by (apply list_elem_of_filter; auto).
    destruct (filter (fun z => f z = f x) l); [now apply elem_of_nil in Hy'|].
    simpl in H. lia.
  - apply IH. intros k. specialize (H k). rewrite filter_cons in H.
    case_decide; simpl in H; lia.
Qed.

Lemma extract_keys_NoDup w :
  NoDup (key_of py_str <$> extract_devices_from_yaml py_str w).
Proof.
  apply unique_keys_NoDup. intros k. unfold extract_devices_from_yaml.
  destruct (dir_exists w); simpl; [|lia].
  rewrite scan_files_key, filter_nil. simpl.
  rewrite bool_decide_eq_false_2 by set_solver.
  destruct (first_with_key py_str w k (rglob w)); simpl; lia.
Qed.

(** C8. Two documents that yield the same hostname and address give one
    device in the list: the key is [hostname + "_" + address], the list
    holds exactly one device with that key, and it is the one of the
    first document, in the order of discovery, that yields the key, found
    no later than the first of the two; what the later documents yield is
    dropped. *)
Theorem duplicates_collapse (w : world) (l1 l2 l3 : list path_entry)
    (f1 f2 : path_entry) (d1 d2 : device_descriptor) :
  dir_exists w = true ->
  rglob w = (l1 ++ f1 :: l2 ++ f2 :: l3)%list ->
  scan_file py_str w f1 ∅ = Some d1 ->
  scan_file py_str w f2 ∅ = Some d2 ->
  dev_hostname d1 = dev_hostname d2 ->
  dev_ip d1 = dev_ip d2 ->
  let key := py_str (dev_hostname d1) +:+ "_" +:+ py_str (dev_ip d1) in
  key_of py_str d1 = key /\ key_of py_str d2 = key
  /\ exists d0,
       first_with_key py_str w key (l1 ++ [f1]) = Some d0
       /\ (first_with_key py_str w key l1 = None -> d0 = d1)
       /\ filter (fun d => key_of py_str d = key)
            (extract_devices_from_yaml py_str w) = [d0]
       /\ NoDup (key_of py_str <$> extract_devices_from_yaml py_str w).
Proof.
  intros Hdir Hw H1 H2 Hh Hi key.
  assert (Hk1 : key_of py_str d1 = key) by reflexivity.
  assert (Hk2 : key_of py_str d2 = key) by (unfold key_of; now rewrite <- Hh, <- Hi).
  split; [exact Hk1|]. split; [exact Hk2|].
  destruct (first_with_key_found w key l1 f1 d1 H1 Hk1) as (d0 & Hd0 & _).
  exists d0. split; [exact Hd0|]. split.
  { intros Hnone. rewrite first_with_key_app, Hnone in Hd0. simpl in Hd0.
    fold (yields py_str w f1) in H1. rewrite H1, (bool_decide_eq_true_2 _ Hk1) in Hd0.
    congruence. }
  split; [|apply extract_keys_NoDup].
  unfold extract_devices_from_yaml. rewrite Hdir. simpl.
  rewrite scan_files_key, filter_nil, Hw. simpl.
  rewrite bool_decide_eq_false_2 by set_solver.
  change (l1 ++ f1 :: l2 ++ f2 :: l3)%list
    with (l1 ++ [f1] ++ (l2 ++ f2 :: l3))%list.
  rewrite app_assoc, first_with_key_app, Hd0. reflexivity.
Qed.

(** The loops of [check] compute conjunctions. *)
Lemma report_interfaces_spec l m :
  report_interfaces l m = m && forallb matches_config l.
Proof.
  revert m. induction l as [|x l IH]; intros m; simpl.
  - now rewrite andb_true_r.
  - rewrite IH. now destruct (matches_config x), m.
Qed.

Lemma check_devices_spec w device_list username password : forall m,
  check_devices w device_list username password m
  = m && fabric_verdict
           (map (fun d => check_device_interface_connectivity w d username password)
                device_list).
Proof.
  unfold fabric_verdict.
  induction device_list as [|d device_list IH]; intros m; simpl.
  - now rewrite andb_true_r.
  - rewrite IH.
    destruct (connected _) eqn:Hc; simpl; [|now rewrite andb_false_r].
    destruct (interface_results _) as [|x l] eqn:Hi.
    + reflexivity.
    + rewrite report_interfaces_spec. simpl.
      destruct m, (matches_config x), (forallb matches_config l); simpl;
        try reflexivity;
        now rewrite ?andb_false_r.
Qed.

(** C10. When the scan finds no device, [check] returns [False], although
    the conjunction over no device at all is true. *)
Theorem no_device_fails (w : world) :
  extract_devices_from_yaml py_str w = [] ->
  check py_str w = false
  /\ fabric_verdict
       (map (fun d => check_device_interface_connectivity w d "admin" "C1sco12345!")
            (extract_devices_from_yaml py_str w)) = true.
Proof.
  intros H. unfold check. rewrite H. split; reflexivity.
Qed.

(** C1, amended. When the scan finds a device or more, the verdict that
    [check] returns is the conjunction of the flag [connected] of every
    device and of the flag [matches] of every interface of every device:
    one device that cannot be reached, or one interface that does not
    match, makes it false. *)
Theorem verdict_is_conjunction (w : world) :
  extract_devices_from_yaml py_str w <> [] ->
  let rs :=
    map (fun d => check_device_interface_connectivity w d "admin" "C1sco12345!")
        (extract_devices_from_yaml py_str w) in
  check py_str w = fabric_verdict rs
  /\ (forall r, r ∈ rs -> connected r = false -> check py_str w = false)
  /\ (forall r x, r ∈ rs -> x ∈ interface_results r ->
                  matches_config x = false -> check py_str w = false).
Proof.
  intros Hne rs.
  assert (Heq : check py_str w = fabric_verdict rs).
  { unfold check. subst rs.
    destruct (extract_devices_from_yaml py_str w) as [|d l] eqn:E; [done|].
    now rewrite check_devices_spec. }
  split; [exact Heq|]. rewrite Heq. unfold fabric_verdict. split.
  - intros r Hr Hc. apply andb_false_iff. left.
    apply not_true_is_false. intros Hall.
    rewrite forallb_forall in Hall. apply list_elem_of_In in Hr.
    specialize (Hall r Hr). congruence.
  - intros r x Hr Hx Hm. apply andb_false_iff. right.
    apply not_true_is_false. intros Hall.
    rewrite forallb_forall in Hall. apply list_elem_of_In in Hr.
    specialize (Hall r Hr). rewrite forallb_forall in Hall.
    apply list_elem_of_In in Hx. specialize (Hall x Hx). congruence.
Qed.

End Fabric.

(** ** The examples, and the failures of a session *)

Lemma top_level_files_skipped_witness :
  rglob (fabric (Ok answering))
  = ([] ++ top_file :: [leaf_dir; leaf_file; leaf_copy])%list
  /\ length (rel_parts top_file) = 1%nat
  /\ extract_devices_from_yaml text_of (fabric (Ok answering))
     = extract_devices_from_yaml text_of
         (with_rglob [leaf_dir; leaf_file; leaf_copy] (fabric (Ok answering))).
Proof.
  split; [reflexivity|]. split; [reflexivity|].
  destruct (top_level_files_skipped text_of (fabric (Ok answering)) []
              [leaf_dir; leaf_file; leaf_copy] top_file eq_refl eq_refl)
    as (_ & H & _).
  exact H.
Defined.

Lemma duplicates_collapse_witness :
  scan_file text_of (fabric (Ok answering)) leaf_file ∅ = Some leaf_device
  /\ scan_file text_of (fabric (Ok answering)) leaf_copy ∅ = Some leaf_copy_device
  /\ filter (fun d => key_of text_of d = "leaf1_10.0.0.1")
       (extract_devices_from_yaml text_of (fabric (Ok answering)))
     = [leaf_device].
Proof.
  assert (H1 : scan_file text_of (fabric (Ok answering)) leaf_file ∅
               = Some leaf_device) by (vm_compute; reflexivity).
  assert (H2 : scan_file text_of (fabric (Ok answering)) leaf_copy ∅
               = Some leaf_copy_device) by (vm_compute; reflexivity).
  split; [exact H1|]. split; [exact H2|].
  destruct (duplicates_collapse text_of (fabric (Ok answering))
              [top_file; leaf_dir] [] [] leaf_file leaf_copy
              leaf_device leaf_copy_device
              eq_refl eq_refl H1 H2 eq_refl eq_refl)
    as (_ & _ & d0 & Hfirst & _ & Hfilter & _).
  vm_compute in Hfirst. injection Hfirst as <-. exact Hfilter.
Defined.

Lemma no_device_fails_witness :
  extract_devices_from_yaml text_of empty_fabric = []
  /\ check text_of empty_fabric = false.
Proof.
  split; [reflexivity|].
  destruct (no_device_fails text_of empty_fabric eq_refl) as [H _]. exact H.
Defined.

(** C1, as stated, fails on a tree without any device: the conjunction
    over no device is true and [check] returns [False]. *)
Lemma verdict_of_no_device :
  ~ (forall py_str w,
       check py_str w
       = fabric_verdict
           (map (fun d => check_device_interface_connectivity w d
                            "admin" "C1sco12345!")
                (extract_devices_from_yaml py_str w))).
Proof.
  intros H. specialize (H text_of empty_fabric). vm_compute in H. discriminate H.
Qed.

Lemma verdict_is_conjunction_witness :
  extract_devices_from_yaml text_of (fabric (Ok answering)) <> []
  /\ check text_of (fabric (Ok answering))
     = fabric_verdict
         (map (fun d => check_device_interface_connectivity
                          (fabric (Ok answering)) d "admin" "C1sco12345!")
              (extract_devices_from_yaml text_of (fabric (Ok answering)))).
Proof.
  assert (Hne : extract_devices_from_yaml text_of (fabric (Ok answering)) <> [])
    by (vm_compute; discriminate).
  split; [exact Hne|].
  destruct (verdict_is_conjunction text_of (fabric (Ok answering)) Hne) as [H _].
  exact H.
Defined.

(** An exception raised by [ConnectHandler] is recorded: the device is
    not connected and the message tells the kind of failure. *)
Lemma connect_failure_recorded (w : world) (d : device_descriptor)
    (username password : string) (e : exn) :
  ConnectHandler w
    {| device_type := "cisco_nxos"; host := dev_ip d; username := username;
       password := password; timeout := 30; session_timeout := 30 |}
  = Raise e ->
  check_device_interface_connectivity w d username password
  = {| connected := false; res_hostname := dev_hostname d;
       interface_results := []; error_message := message_of e |}
  /\ message_of e <> "".
Proof.
  intros H. unfold check_device_interface_connectivity, try_body, call.
  unfold mbind, M_bind. rewrite H. split; destruct e; try reflexivity;
    discriminate.
Qed.

(** An exception raised by the command, once the session is open, is
    recorded too, but the device stays marked as connected. *)
Lemma command_failure_recorded (w : world) (d : device_descriptor)
    (username password : string) (c : connection) (e : exn)
    (i : interface_entry) (l : list interface_entry) :
  ConnectHandler w
    {| device_type := "cisco_nxos"; host := dev_ip d; username := username;
       password := password; timeout := 30; session_timeout := 30 |}
  = Ok c ->
  get_interfaces_without_policy w (dev_filepath d) = i :: l ->
  send_command c "show interface status" = Raise e ->
  check_device_interface_connectivity w d username password
  = {| connected := true; res_hostname := dev_hostname d;
       interface_results := []; error_message := message_of e |}.
Proof.
  intros Hc Hi Hs. unfold check_device_interface_connectivity, try_body, call.
  unfold mbind, M_bind. rewrite Hc. simpl. rewrite Hi, Hs.
  destruct e; reflexivity.
Qed.

(** C3 on a device that accepts the session and whose command then
    raises: the exception is caught and its message recorded, but the
    device stays marked as connected, no interface is checked, and the
    verdict of the run is true. *)
Lemma command_failure_not_counted :
  extract_devices_from_yaml text_of (fabric (Ok silent)) = [leaf_device]
  /\ check_device_interface_connectivity (fabric (Ok silent)) leaf_device
       "admin" "C1sco12345!"
     = {| connected := true; res_hostname := YStr "leaf1";
          interface_results := [];
          error_message := "Error: Pattern not detected" |}
  /\ check text_of (fabric (Ok silent)) = true.
Proof.
  split; [vm_compute; reflexivity|]. split; vm_compute; reflexivity.
Qed.

(** ** Further properties of the status parser *)

Lemma parse_line_is_Some m line k :
  is_Some (m !! k) \/ re_match interface_re (Py.lstrip line) = Some k ->
  is_Some (parse_line m line !! k).
Proof.
  unfold parse_line. intros [Hm|Hl].
  - destruct (re_match interface_re (Py.lstrip line)) as [i|]; [|exact Hm].
    rewrite lookup_insert. case_decide; [eauto | exact Hm].
  - rewrite Hl, lookup_insert_eq. eauto.
Qed.

Lemma foldl_parse_line_is_Some lines : forall m k,
  is_Some (m !! k)
  \/ (exists line, line ∈ lines
        /\ re_match interface_re (Py.lstrip line) = Some k) ->
  is_Some (foldl parse_line m lines !! k).
Proof.
  induction lines as [|line lines IH]; simpl; intros m k H.
  - destruct H as [H|(l & Hl & _)]; [exact H | now apply elem_of_nil in Hl].
  - apply IH. destruct H as [H|(l & Hl & Hm)].
    + left. apply parse_line_is_Some. auto.
    + apply elem_of_cons in Hl as [->|Hl].
      * left. apply parse_line_is_Some. auto.
      * right. eauto.
Qed.

(** The lines that do not begin with the name [k] leave its entry as it
    is. *)
Lemma foldl_parse_line_other lines : forall m k,
  Forall (fun l => re_match interface_re (Py.lstrip l) <> Some k) lines ->
  foldl parse_line m lines !! k = m !! k.
Proof.
  induction lines as [|line lines IH]; simpl; intros m k H; [reflexivity|].
  apply Forall_cons in H as [Hline Hlines].
  rewrite (IH _ _ Hlines). unfold parse_line.
  destruct (re_match interface_re (Py.lstrip line)) as [i|]; [|reflexivity].
  apply lookup_insert_ne. congruence.
Qed.

(** X1. The keys of the status map are the interface names that begin
    the lines of the output, leading white space apart: a name is a key
    exactly when some line begins with it. *)
Theorem status_map_keys (output k : string) :
  is_Some (parse_interface_status_output output !! k)
  <-> exists line, line ∈ Py.split_char newline output
                   /\ re_match interface_re (Py.lstrip line) = Some k.
Proof.
  unfold parse_interface_status_output. split.
  - intros [v Hv]. apply foldl_parse_line_lookup in Hv as [Hv|(l & Hl & Hm & _)].
    + now rewrite lookup_empty in Hv.
    + eauto.
  - intros H. apply foldl_parse_line_is_Some. auto.
Qed.

(** X2. When several lines begin with the same interface name, the last
    of them gives the status: the later line overwrites the earlier
    ones. *)
Theorem later_line_overwrites (output : string) (before after : list string)
    (line k : string) :
  Py.split_char newline output = (before ++ line :: after)%list ->
  re_match interface_re (Py.lstrip line) = Some k ->
  Forall (fun l => re_match interface_re (Py.lstrip l) <> Some k) after ->
  parse_interface_status_output output !! k
  = Some (line_status (Py.lstrip line)).
Proof.
  intros Hsplit Hline Hafter. unfold parse_interface_status_output.
  rewrite Hsplit, foldl_app. simpl.
  rewrite (foldl_parse_line_other _ _ _ Hafter).
  unfold parse_line at 1. rewrite Hline. apply lookup_insert_eq.
Qed.

Lemma later_line_overwrites_witness :
  parse_interface_status_output flapping_output !! "Eth1/1" = Some "disabled".
Proof.
  rewrite (later_line_overwrites flapping_output
             ["Eth1/1  uplink  connected"] [] "Eth1/1  uplink  disabled" "Eth1/1").
  - vm_compute. reflexivity.
  - vm_compute. reflexivity.
  - vm_compute. reflexivity.
  - constructor.
Defined.

Lemma find_first_hit {A} (p : A -> bool) (pre post : list A) (t : A) :
  Forall (fun u => p u = false) pre -> p t = true ->
  List.find p (pre ++ t :: post) = Some t.
Proof.
  induction 1 as [|u pre Hu _ IH]; simpl; intros Ht.
  - now rewrite Ht.
  - rewrite Hu. now apply IH.
Qed.

(** X3. The status of a line is given by the first token, after the
    first one, that is a status keyword once lower-cased, whatever
    follows it; a token before it that only holds a keyword, such as
    [connected-to-core], is passed over. *)
Theorem first_keyword_token_wins (s first t : string) (pre post : list string) :
  Py.split s = first :: (pre ++ t :: post)%list ->
  Forall (fun u => Py.lower u ∉ status_keywords) pre ->
  Py.lower t ∈ status_keywords ->
  line_status s = (if Py.lower t =? "not" then "notconnect" else Py.lower t).
Proof.
  intros Hsplit Hpre Ht.
  rewrite line_status_layered. unfold layered_status, token_scan.
  rewrite Hsplit. simpl.
  rewrite (find_first_hit _ pre post t); [reflexivity| |].
  - eapply Forall_impl; [exact Hpre|]. intros u Hu. simpl in Hu.
    apply bool_decide_eq_false_2. now rewrite <- status_keywords_spec.
  - apply bool_decide_eq_true_2. now rewrite <- status_keywords_spec.
Qed.

Lemma first_keyword_token_wins_witness :
  line_status described_line = "notconnect".
Proof.
  rewrite (first_keyword_token_wins described_line "Eth1/1" "notconnect"
             ["connected-to-core"] ["connected"]).
  - reflexivity.
  - vm_compute. reflexivity.
  - constructor; [|constructor]. vm_compute. intros H.
    unfold status_keywords in H. set_unfold. intuition discriminate.
  - unfold status_keywords. set_unfold. vm_compute. tauto.
Defined.

(** ** Further properties of the interfaces without policy *)

Lemma dict_get_has_key entries k :
  has_key entries k = false <-> dict_get entries k = None.
Proof.
  unfold has_key. induction entries as [|[key v] entries IH]; simpl;
    [tauto|].
  destruct key; simpl; try exact IH.
  destruct (s =? k); simpl; [split; discriminate | exact IH].
Qed.

Lemma omap_interface_without_policy items :
  omap interface_without_policy items
  = map entry_of (List.filter without_policy items).
Proof.
  induction items as [|item items IH]; [reflexivity|].
  cbn [omap list_omap List.filter]. fold (omap interface_without_policy items).
  rewrite IH.
  destruct item as [| | | | | |entries|]; try reflexivity.
  unfold interface_without_policy, without_policy.
  destruct (dict_get entries "Policy") eqn:Hp.
  - destruct (has_key entries "Policy") eqn:Hk; [reflexivity|].
    apply dict_get_has_key in Hk. congruence.
  - apply dict_get_has_key in Hp. rewrite Hp. reflexivity.
Qed.

(** X4. For a document that is a mapping with a sequence under
    ['Interface'], [get_interfaces_without_policy] returns one entry for
    each item that is a mapping without the key ['Policy'], whatever
    value the key has when it is there, in the order of the sequence and
    as many times as the item is there; the other items give nothing.  A
    file that cannot be read, or a document that is not a mapping, gives
    the empty list. *)
Theorem interfaces_without_policy_exact (w : world) (yaml_file_path : string)
    (config : list (yaml * yaml)) (items : list yaml) :
  safe_load w yaml_file_path = Ok (YMap config) ->
  dict_get config "Interface" = Some (YSeq items) ->
  get_interfaces_without_policy w yaml_file_path
  = map entry_of (List.filter without_policy items)
  /\ (length (get_interfaces_without_policy w yaml_file_path) ≤ length items)%nat
  /\ forall w' path',
       match safe_load w' path' with
       | Ok (YMap _) => True
       | _ => get_interfaces_without_policy w' path' = []
       end.
Proof.
  intros Hload Hi. unfold get_interfaces_without_policy at 1 2.
  rewrite Hload, Hi, omap_interface_without_policy.
  split; [reflexivity|]. split.
  - rewrite length_map. apply List.filter_length_le.
  - intros w' path'. unfold get_interfaces_without_policy.
    destruct (safe_load w' path') as [[]|]; auto.
Qed.

Lemma interfaces_without_policy_exact_witness :
  get_interfaces_without_policy (fabric (Ok answering)) "node/leaf/leaf1.yaml"
  = [ {| name := YStr "Ethernet1/1"; description := YStr "Server-Uplink";
         enable := true |} ].
Proof.
  destruct (interfaces_without_policy_exact (fabric (Ok answering))
              "node/leaf/leaf1.yaml"
              [ (YStr "Hostname", YStr "leaf1");
                (YStr "IP Address", YStr "10.0.0.1");
                (YStr "Interface",
                 YSeq [ YMap [ (YStr "Name", YStr "Ethernet1/1");
                               (YStr "Interface Description", YStr "Server-Uplink");
                               (YStr "Enable Interface", YBool true) ];
                        YMap [ (YStr "Name", YStr "Ethernet1/2");
                               (YStr "Policy", YStr "trunk") ] ]) ]
              [ YMap [ (YStr "Name", YStr "Ethernet1/1");
                       (YStr "Interface Description", YStr "Server-Uplink");
                       (YStr "Enable Interface", YBool true) ];
                YMap [ (YStr "Name", YStr "Ethernet1/2");
                       (YStr "Policy", YStr "trunk") ] ])
    as [H _].
  - reflexivity.
  - reflexivity.
  - rewrite H. vm_compute. reflexivity.
Defined.

(** ** Further properties of the check of one device *)

Lemma loop_outcome_all_text l : all_text l = true -> loop_outcome l = Ok tt.
Proof.
  induction l as [|i l IH]; simpl; [reflexivity|].
  destruct (name i); simpl; try discriminate. exact IH.
Qed.

Lemma loop_outcome_not_all_text l :
  all_text l = false -> exists e, loop_outcome l = Raise e.
Proof.
  induction l as [|i l IH]; simpl; [discriminate|].
  destruct (name i); simpl; eauto.
Qed.

Lemma message_of_nonempty e : message_of e <> "".
Proof. destruct e; discriminate. Qed.

(** The loop over the interfaces records the results up to the first
    name that is not a text, and raises there. *)
Lemma check_interfaces_run m l : forall r,
  check_interfaces m l r = (append_all (checked_prefix m l) r, loop_outcome l).
Proof.
  induction l as [|i l IH]; intros r; simpl.
  - unfold append_all. rewrite app_nil_r. now destruct r.
  - unfold mbind, M_bind, check_interface, check_result, call, update.
    destruct (name i) as [| | |n| | | |]; simpl; try (unfold append_all;
      rewrite app_nil_r; now destruct r).
    rewrite IH. unfold append_all, append_interface_result. simpl.
    now rewrite <- app_assoc.
Qed.

(** The body of [try], step by step. *)
Lemma try_body_run w device d r :
  try_body w device d r
  = match ConnectHandler w device with
    | Raise e => (r, Raise e)
    | Ok c =>
        let r1 := set_connected true r in
        match get_interfaces_without_policy w (dev_filepath d) with
        | [] => (r1, disconnect c)
        | i :: l =>
            match send_command c "show interface status" with
            | Raise e => (r1, Raise e)
            | Ok out =>
                let r2 :=
                  append_all
                    (checked_prefix (parse_interface_status_output out) (i :: l))
                    r1 in
                match loop_outcome (i :: l) with
                | Ok _ => (r2, disconnect c)
                | Raise e => (r2, Raise e)
                end
            end
        end
    end.
Proof.
  unfold try_body, mbind, M_bind, call, update.
  destruct (ConnectHandler w device) as [c|e]; [|reflexivity]. cbv beta iota zeta.
  destruct (get_interfaces_without_policy w (dev_filepath d)) as [|i l];
    [reflexivity|].
  destruct (send_command c "show interface status") as [out|e]; [|reflexivity].
  rewrite check_interfaces_run.
  generalize (loop_outcome (i :: l)). intros [[]|e]; reflexivity.
Qed.

Lemma check_device_unfold w d username password :
  check_device_interface_connectivity w d username password
  = match try_body w (device_of d username password) d (initial_results d) with
    | (results, Ok _) => results
    | (results, Raise e) => set_error_message (message_of e) results
    end.
Proof.
  unfold check_device_interface_connectivity.
  change {| device_type := "cisco_nxos"; host := dev_ip d;
            username := username; password := password;
            timeout := 30; session_timeout := 30 |}
    with (device_of d username password).
  change {| connected := false; res_hostname := dev_hostname d;
            interface_results := []; error_message := "" |}
    with (initial_results d).
  destruct (try_body _ _ _ _) as [r [a|[| |text]]]; reflexivity.
Qed.






(** X5. The flag [connected] of the result tells whether [ConnectHandler]
    returned a session, and nothing else: an exception raised later, by
    the command, by the loop or by [disconnect], leaves it true. *)
Theorem connected_tells_session_opened (w : world) (d : device_descriptor)
    (username password : string) :
  connected (check_device_interface_connectivity w d username password)
  = match ConnectHandler w (device_of d username password) with
    | Ok _ => true
    | Raise _ => false
    end.
Proof.
  rewrite check_device_unfold, try_body_run.
  destruct (ConnectHandler w _) as [c|e]; [|reflexivity]. cbv beta iota zeta.
  destruct (get_interfaces_without_policy w (dev_filepath d)) as [|i l].
  - now destruct (disconnect c).
  - destruct (send_command c "show interface status") as [out|e];
      [|reflexivity].
    generalize (loop_outcome (i :: l)). intros [[]|e]; [|reflexivity].
    now destruct (disconnect c).
Qed.

(** X6. The message of the result is empty exactly when the body of [try]
    raised nothing; otherwise it is the message of the exception, which
    is never empty and tells a timeout, a refusal of the credentials and
    any other exception apart. *)
Theorem error_message_tells_exception (w : world) (d : device_descriptor)
    (username password : string) (text : string) :
  error_message (check_device_interface_connectivity w d username password)
  = match (try_body w (device_of d username password) d (initial_results d)).2 with
    | Ok _ => ""
    | Raise e => message_of e
    end
  /\ message_of NetmikoTimeoutException <> ""
  /\ message_of NetmikoAuthenticationException <> ""
  /\ message_of (Exception text) <> ""
  /\ message_of NetmikoTimeoutException <> message_of NetmikoAuthenticationException
  /\ message_of (Exception text) <> message_of NetmikoTimeoutException
  /\ message_of (Exception text) <> message_of NetmikoAuthenticationException.
Proof.
  split; [|repeat split; discriminate].
  rewrite check_device_unfold, try_body_run.
  destruct (ConnectHandler w _) as [c|e]; [|reflexivity]. cbv beta iota zeta.
  destruct (get_interfaces_without_policy w (dev_filepath d)) as [|i l].
  - now destruct (disconnect c).
  - destruct (send_command c "show interface status") as [out|e];
      [|reflexivity].
    generalize (loop_outcome (i :: l)). intros [[]|e]; [|reflexivity].
    now destruct (disconnect c).
Qed.

(** X7. When the session opens, the command answers, every interface
    without policy has a text for a name and the session closes, the
    result holds one interface result for each interface, in the order of
    the document, each with the status read in the map of the answer, and
    no message. *)
Theorem successful_check (w : world) (d : device_descriptor)
    (username password : string) (c : connection) (out : string)
    (i : interface_entry) (l : list interface_entry) :
  ConnectHandler w (device_of d username password) = Ok c ->
  get_interfaces_without_policy w (dev_filepath d) = i :: l ->
  send_command c "show interface status" = Ok out ->
  all_text (i :: l) = true ->
  disconnect c = Ok tt ->
  check_device_interface_connectivity w d username password
  = {| connected := true; res_hostname := dev_hostname d;
       interface_results :=
         checked_prefix (parse_interface_status_output out) (i :: l);
       error_message := "" |}
  /\ Forall2 (fun e x => check_result (parse_interface_status_output out) e = Some x)
       (i :: l) (checked_prefix (parse_interface_status_output out) (i :: l)).
Proof.
  intros Hc Hi Hs Ht Hd. split.
  - rewrite check_device_unfold, try_body_run, Hc, Hi, Hs.
    rewrite (loop_outcome_all_text _ Ht), Hd. reflexivity.
  - clear Hi. revert Ht. generalize (i :: l) as es.
    induction es as [|e es IH]; intros Ht; [constructor|].
    simpl in Ht. apply andb_true_iff in Ht as [He Hes]. simpl.
    destruct (check_result _ e) as [x|] eqn:E.
    + constructor; [exact E | now apply IH].
    + unfold check_result in E. destruct (name e); discriminate.
Qed.

Lemma successful_check_witness :
  interface_results
    (check_device_interface_connectivity (fabric (Ok answering)) leaf_device
       "admin" "C1sco12345!")
  = [ {| res_name := "Ethernet1/1"; res_description := YStr "Server-Uplink";
         status := "connected"; expected_enable := true;
         matches_config := true |} ].
Proof.
  destruct (successful_check (fabric (Ok answering)) leaf_device
              "admin" "C1sco12345!" answering status_output
              {| name := YStr "Ethernet1/1";
                 description := YStr "Server-Uplink"; enable := true |} [])
    as [H _].
  - reflexivity.
  - vm_compute. reflexivity.
  - reflexivity.
  - reflexivity.
  - reflexivity.
  - rewrite H. vm_compute. reflexivity.
Defined.

(** X8. When the document of the device has no interface without policy,
    the command is not sent: whatever [send_command] would do, the result
    is connected, without interface results, and its message is the one
    of [disconnect], if it raises. *)
Theorem no_interface_no_command (w : world) (d : device_descriptor)
    (username password : string) (c : connection) :
  ConnectHandler w (device_of d username password) = Ok c ->
  get_interfaces_without_policy w (dev_filepath d) = [] ->
  check_device_interface_connectivity w d username password
  = {| connected := true; res_hostname := dev_hostname d;
       interface_results := [];
       error_message :=
         match disconnect c with Ok _ => "" | Raise e => message_of e end |}.
Proof.
  intros Hc Hi. rewrite check_device_unfold, try_body_run, Hc, Hi. simpl.
  now destruct (disconnect c).
Qed.

Lemma no_interface_no_command_witness :
  check_device_interface_connectivity (bare_fabric (Ok silent)) spine_device
    "admin" "C1sco12345!"
  = {| connected := true; res_hostname := YStr "spine1";
       interface_results := []; error_message := "" |}.
Proof.
  rewrite (no_interface_no_command (bare_fabric (Ok silent)) spine_device
             "admin" "C1sco12345!" silent); reflexivity.
Defined.

Lemma checked_prefix_length m l :
  all_text l = false -> (length (checked_prefix m l) < length l)%nat.
Proof.
  induction l as [|e l IH]; simpl; [discriminate|].
  unfold check_result. destruct (name e); simpl; try lia.
  intros H. specialize (IH H). lia.
Qed.

(** X9. An interface whose name is not a text stops the loop: the results
    recorded for the interfaces before it stay in the result, the
    interfaces after it are not checked, a message is set, and the device
    stays connected. *)
Theorem failing_name_stops_checks (w : world) (d : device_descriptor)
    (username password : string) (c : connection) (out : string)
    (i : interface_entry) (l : list interface_entry) :
  ConnectHandler w (device_of d username password) = Ok c ->
  get_interfaces_without_policy w (dev_filepath d) = i :: l ->
  send_command c "show interface status" = Ok out ->
  all_text (i :: l) = false ->
  let r := check_device_interface_connectivity w d username password in
  connected r = true
  /\ interface_results r
     = checked_prefix (parse_interface_status_output out) (i :: l)
  /\ (length (interface_results r) < length (i :: l))%nat
  /\ error_message r <> "".
Proof.
  intros Hc Hi Hs Ht r. subst r.
  destruct (loop_outcome_not_all_text _ Ht) as [e He].
  rewrite check_device_unfold, try_body_run, Hc, Hi, Hs, He. cbv beta iota zeta.
  repeat split; [|apply message_of_nonempty].
  apply (checked_prefix_length _ (i :: l) Ht).
Qed.

Lemma failing_name_stops_checks_witness :
  interface_results
    (check_device_interface_connectivity numbered_fabric numbered_device
       "admin" "C1sco12345!")
  = [ {| res_name := "Ethernet1/1"; res_description := YStr "";
         status := "connected"; expected_enable := true;
         matches_config := true |} ].
Proof.
  destruct (failing_name_stops_checks numbered_fabric numbered_device
              "admin" "C1sco12345!" answering status_output
              {| name := YStr "Ethernet1/1"; description := YStr "";
                 enable := true |}
              [ {| name := YInt 5; description := YStr ""; enable := true |};
                {| name := YStr "Ethernet1/3"; description := YStr "";
                   enable := true |} ])
    as (_ & H & _).
  - reflexivity.
  - vm_compute. reflexivity.
  - reflexivity.
  - reflexivity.
  - rewrite H. vm_compute. reflexivity.
Defined.

Lemma foldl_parse_line_none lines : forall m,
  Forall (fun line => re_match interface_re (Py.lstrip line) = None) lines ->
  foldl parse_line m lines = m.
Proof.
  induction lines as [|line lines IH]; simpl; intros m H; [reflexivity|].
  apply Forall_cons in H as [Hline Hlines].
  rewrite (IH _ Hlines). unfold parse_line. now rewrite Hline.
Qed.

Lemma checked_prefix_empty l :
  Forall (fun x => status x = "not found"
                   /\ matches_config x = negb (expected_enable x))
    (checked_prefix ∅ l).
Proof.
  induction l as [|e l IH]; simpl; [constructor|].
  unfold check_result. destruct (name e); try constructor; [|exact IH].
  simpl. split; [reflexivity|]. now destruct (enable e).
Qed.

(** X10. An answer of which no line begins with an interface name, such
    as an empty answer or a message of error of the device, gives an
    empty status map: every interface checked against it has the status
    ["not found"], and matches exactly when it is expected to be
    disabled. *)
Theorem answer_without_interface_line (out : string)
    (interfaces : list interface_entry) :
  Forall (fun line => re_match interface_re (Py.lstrip line) = None)
    (Py.split_char newline out) ->
  parse_interface_status_output out = ∅
  /\ Forall (fun x => status x = "not found"
                      /\ matches_config x = negb (expected_enable x))
       (checked_prefix (parse_interface_status_output out) interfaces).
Proof.
  intros H.
  assert (Hmap : parse_interface_status_output out = ∅)
    by (now apply foldl_parse_line_none).
  split; [exact Hmap|]. rewrite Hmap. apply checked_prefix_empty.
Qed.

Lemma answer_without_interface_line_witness :
  parse_interface_status_output rejected_output = ∅.
Proof.
  destruct (answer_without_interface_line rejected_output []) as [H _].
  - replace (Py.split_char newline rejected_output) with [rejected_output]
      by (vm_compute; reflexivity).
    constructor; [vm_compute; reflexivity | constructor].
  - exact H.
Defined.

Lemma replace_go_absent old new s :
  occurs_in old s = false -> Py.replace_go old new 0 s = s.
Proof.
  induction s as [|c s IH]; [reflexivity|].
  cbn [occurs_in]. intros H. apply orb_false_iff in H as [Hs Ho].
  cbn [Py.replace_go]. rewrite Hs, (IH Ho). reflexivity.
Qed.

(** X11. A name in which [Ethernet] does not occur, such as a short name
    or the name of a management interface, is looked up in the status map
    as it is. *)
Theorem other_names_looked_up_unchanged (m : gmap string string) (n : string)
    (d : yaml) (e : bool) (r : results) :
  occurs_in "Ethernet" n = false ->
  Py.replace n "Ethernet" "Eth" = n
  /\ check_interface m {| name := YStr n; description := d; enable := e |} r
     = (append_interface_result
          {| res_name := n; res_description := d;
             status := default "not found" (m !! n);
             expected_enable := e;
             matches_config := matches (default "not found" (m !! n)) e |} r,
        Ok tt).
Proof.
  intros H.
  assert (Hn : Py.replace n "Ethernet" "Eth" = n)
    by (now apply replace_go_absent).
  split; [exact Hn|].
  unfold check_interface, mbind, M_bind, call, update. simpl. now rewrite Hn.
Qed.

Lemma other_names_looked_up_unchanged_witness :
  Py.replace "mgmt0" "Ethernet" "Eth" = "mgmt0".
Proof.
  destruct (other_names_looked_up_unchanged ∅ "mgmt0" YNull true
              (initial_results leaf_device)) as [H _].
  - reflexivity.
  - exact H.
Defined.

(** ** Further properties of the discovery and of the verdict *)

Section Discovery.

Variable py_str : yaml -> string.

(** A loop raises when its body raises for one of its elements. *)
Lemma for_each_raises {A} (body : A -> device_info -> result device_info)
    (x : A) (l : list A) :
  x ∈ l ->
  (forall info, exists e, body x info = Raise e) ->
  forall info, exists e, for_each body l info = Raise e.
Proof.
  intros Hx Hbody. induction l as [|y l IH]; intros info.
  - now apply elem_of_nil in Hx.
  - simpl. apply elem_of_cons in Hx as [<-|Hx].
    + destruct (Hbody info) as [e ->]. eauto.
    + destruct (body y info) as [info'|e]; [apply (IH Hx) | eauto].
Qed.

(** The list is the one of the tree without a file that yields
    nothing. *)
Lemma extract_without_file w before f after :
  rglob w = (before ++ f :: after)%list ->
  (forall seen, scan_file py_str w f seen = None) ->
  extract_devices_from_yaml py_str w
  = extract_devices_from_yaml py_str (with_rglob (before ++ after) w).
Proof.
  intros Hw Hf. unfold extract_devices_from_yaml. simpl.
  destruct (dir_exists w); simpl; [|reflexivity].
  rewrite Hw, scan_files_skip by exact Hf. now rewrite scan_files_with_rglob.
Qed.

(** X12. A document that cannot be read or parsed is passed over and the
    scan goes on: the list of devices is the one of the tree without the
    file. *)
Theorem unreadable_document_skipped (w : world)
    (before after : list path_entry) (f : path_entry) (e : exn) :
  rglob w = (before ++ f :: after)%list ->
  safe_load w (path_text f) = Raise e ->
  extract_devices_from_yaml py_str w
  = extract_devices_from_yaml py_str (with_rglob (before ++ after) w).
Proof.
  intros Hw He. apply (extract_without_file w before f after Hw).
  intros seen. unfold scan_file. rewrite He.
  destruct (is_file f); simpl; [|reflexivity].
  case_bool_decide; simpl; [|reflexivity]. now case_bool_decide.
Qed.

(** X13. A file that is eligible, with a document in which the keys
    that the search meets are texts or bytes, yields a device exactly
    when the document is not nested deeper than the recursion limit
    allows and holds an address and a hostname; the device has the name
    and the path of the file and, for each field, the value of its last
    occurrence.  A document nested deeper yields nothing, whatever it
    holds. *)
Theorem device_needs_both_fields (w : world) (f : path_entry) (doc : yaml) :
  eligible f ->
  safe_load w (path_text f) = Ok doc ->
  text_keys doc = true ->
  yields py_str w f
  = if bool_decide (search_depth doc ≤ recursion_budget w)%nat
    then match last (values Address (occurrences doc)),
               last (values Hostname (occurrences doc)) with
         | Some i, Some h =>
             Some {| dev_file := path_name f; dev_filepath := path_text f;
                     dev_ip := i; dev_hostname := h |}
         | _, _ => None
         end
    else None.
Proof.
  intros (Hfile & Hsuffix & Hdepth) Hload Hkeys.
  unfold yields, scan_file. rewrite Hfile, Hload. simpl.
  rewrite (bool_decide_eq_true_2 _ Hsuffix). simpl.
  rewrite bool_decide_eq_false_2 by lia.
  case_bool_decide as Hd.
  - rewrite (find_device_info_occurrences _ _ _ Hkeys Hd).
    match goal with |- context [foldl record_occurrence ?i ?l] =>
      destruct (record_occurrences_fields l i) as (H1 & H2 & H3 & H4)
    end.
    cbv zeta in H1, H2, H3, H4. rewrite H1, H2, H3, H4. simpl.
    unfold last_or.
    destruct (last (values Address (occurrences doc)));
      destruct (last (values Hostname (occurrences doc))); reflexivity.
  - rewrite (find_device_info_too_deep _ _ _ Hkeys) by lia. reflexivity.
Qed.

(** X14. A key without a method [lower], such as a number, a boolean or
    a date, anywhere in the mapping of a document, discards the whole
    document, even when the address and the hostname were found before
    it: the search raises, whatever the depth allowed.  A key that is a
    sequence of bytes has the method, is equal to no name of a field, and
    is passed over as any other key. *)
Theorem non_text_key_discards_document (w : world) (f : path_entry)
    (entries : list (yaml * yaml)) (key v : yaml) (seen : gset string) :
  safe_load w (path_text f) = Ok (YMap entries) ->
  (key, v) ∈ entries ->
  has_lower key = false ->
  scan_file py_str w f seen = None
  /\ (forall depth info,
        exists e, find_device_info depth (YMap entries) info = Raise e)
  /\ (forall find b value info,
        visit_entry find (YBytes b, value) info
        = if is_dict_or_list value then find value info else Ok info).
Proof.
  intros Hload Hin Hkey.
  assert (Hraise : forall depth info,
             exists e, find_device_info depth (YMap entries) info = Raise e).
  { intros [|depth] info; [simpl; eauto|]. cbn [find_device_info].
    apply (for_each_raises _ (key, v) entries Hin).
    intros i. unfold visit_entry.
    destruct key; try discriminate Hkey; simpl; eauto. }
  split; [|split; [exact Hraise | reflexivity]].
  unfold scan_file. rewrite Hload.
  match goal with |- context [find_device_info ?n ?o ?i] =>
    destruct (Hraise n i) as [e ->]
  end.
  destruct (negb (is_file f)); [reflexivity|].
  destruct (negb (bool_decide _)); [reflexivity|].
  destruct (bool_decide _); reflexivity.
Qed.

Lemma scan_files_dedup w files : forall device_list seen,
  scan_files py_str w files device_list seen
  = (device_list
     ++ dedup_keys (key_of py_str) seen (omap (yields py_str w) files))%list.
Proof.
  induction files as [|f files IH]; intros device_list seen; simpl.
  - now rewrite app_nil_r.
  - rewrite scan_file_seen. destruct (yields py_str w f) as [d|]; simpl.
    + case_bool_decide; [apply IH|].
      rewrite IH, <- app_assoc. reflexivity.
    + apply IH.
Qed.

(** X15. The list of devices is the list of what the files yield, in the
    order of [rglob], without the devices whose key comes earlier in that
    list; it is empty when the directory does not exist. *)
Theorem discovery_keeps_first_of_each_key (w : world) :
  extract_devices_from_yaml py_str w
  = if dir_exists w
    then dedup_keys (key_of py_str) ∅ (omap (yields py_str w) (rglob w))
    else [].
Proof.
  unfold extract_devices_from_yaml.
  destruct (dir_exists w); simpl; [|reflexivity].
  now rewrite scan_files_dedup.
Qed.

Lemma first_with_key_elem w f d files :
  f ∈ files -> yields py_str w f = Some d ->
  exists d0, first_with_key py_str w (key_of py_str d) files = Some d0.
Proof.
  intros Hin Hy. induction files as [|g files IH];
    [now apply elem_of_nil in Hin|].
  simpl. destruct (yields py_str w g) as [dg|] eqn:Hg.
  - case_bool_decide as Hk; [eauto|].
    apply elem_of_cons in Hin as [->|Hin]; [|auto].
    rewrite Hy in Hg. injection Hg as ->. now destruct Hk.
  - apply elem_of_cons in Hin as [->|Hin]; [congruence | auto].
Qed.

Lemma first_with_key_key w k files d0 :
  first_with_key py_str w k files = Some d0 -> key_of py_str d0 = k.
Proof.
  induction files as [|g files IH]; simpl; [discriminate|].
  destruct (yields py_str w g) as [dg|]; [|exact IH].
  case_bool_decide as Hk; [|exact IH]. now intros [= <-].
Qed.

(** X16. No identity is lost: when a file of the tree yields a device,
    the list holds a device with the same key. *)
Theorem every_identity_listed (w : world) (f : path_entry)
    (d : device_descriptor) :
  dir_exists w = true ->
  f ∈ rglob w ->
  yields py_str w f = Some d ->
  exists d', d' ∈ extract_devices_from_yaml py_str w
             /\ key_of py_str d' = key_of py_str d.
Proof.
  intros Hdir Hin Hy.
  destruct (first_with_key_elem w f d (rglob w) Hin Hy) as [d0 Hd0].
  exists d0. split; [|now apply first_with_key_key in Hd0].
  assert (Hf : d0 ∈ filter (fun x => key_of py_str x = key_of py_str d)
                     (extract_devices_from_yaml py_str w)).
  { unfold extract_devices_from_yaml. rewrite Hdir. simpl.
    rewrite scan_files_key, filter_nil. simpl.
    rewrite bool_decide_eq_false_2 by set_solver.
    rewrite Hd0. simpl. apply list_elem_of_here. }
  now apply list_elem_of_filter in Hf as [_ Hf].
Qed.

(** X17. A failure is never undone: once the verdict is false, it stays
    false whatever devices come after. *)
Theorem failure_is_never_undone (w : world)
    (l1 l2 : list device_descriptor) (username password : string) (m : bool) :
  check_devices w l1 username password m = false ->
  check_devices w (l1 ++ l2) username password m = false.
Proof.
  rewrite !check_devices_spec, map_app. unfold fabric_verdict.
  rewrite !forallb_app. intros H.
  destruct m; simpl in *; [|reflexivity].
  apply andb_false_iff in H as [H|H]; rewrite H; simpl;
    [reflexivity | now rewrite !andb_false_r].
Qed.



End Discovery.

Lemma unreadable_document_skipped_witness :
  extract_devices_from_yaml text_of patchy_fabric
  = extract_devices_from_yaml text_of
      (with_rglob [vlan_file; leaf_file] patchy_fabric).
Proof.
  apply (unreadable_document_skipped text_of patchy_fabric []
           [vlan_file; leaf_file] broken_file
           (Exception "mapping values are not allowed here"));
    reflexivity.
Defined.

Lemma device_needs_both_fields_witness :
  yields text_of (fabric (Ok answering)) leaf_file = Some leaf_device.
Proof.
  rewrite (device_needs_both_fields text_of (fabric (Ok answering))
             leaf_file leaf_doc).
  - reflexivity.
  - split; [reflexivity|]. split; [|simpl; lia].
    vm_compute. apply list_elem_of_here.
  - reflexivity.
  - reflexivity.
Defined.

Lemma non_text_key_discards_document_witness :
  scan_file text_of patchy_fabric vlan_file ∅ = None.
Proof.
  destruct (non_text_key_discards_document text_of patchy_fabric vlan_file
              [ (YStr "hostname", YStr "leaf3");
                (YStr "ip address", YStr "10.0.0.3");
                (YInt 100, YStr "vlan") ]
              (YInt 100) (YStr "vlan") ∅) as [H _].
  - reflexivity.
  - do 2 apply list_elem_of_further. apply list_elem_of_here.
  - reflexivity.
  - exact H.
Defined.

Lemma every_identity_listed_witness :
  exists d', d' ∈ extract_devices_from_yaml text_of (fabric (Ok answering))
             /\ key_of text_of d' = key_of text_of leaf_copy_device.
Proof.
  apply (every_identity_listed text_of (fabric (Ok answering)) leaf_copy
           leaf_copy_device).
  - reflexivity.
  - vm_compute. do 3 apply list_elem_of_further. apply list_elem_of_here.
  - vm_compute. reflexivity.
Defined.

Lemma failure_is_never_undone_witness :
  check_devices (fabric (Raise NetmikoAuthenticationException))
    ([leaf_device] ++ [spine_device]) "admin" "C1sco12345!" true = false.
Proof.
  apply (failure_is_never_undone (fabric (Raise NetmikoAuthenticationException))
           [leaf_device] [spine_device] "admin" "C1sco12345!" true).
  reflexivity.
Defined.
